(** * Earnings-call transcript assistant: query resolution and transcript fetch

    A shallow embedding of [src/app.py].  Python values that flow through the
    pipeline are JSON documents, so they are embedded as a small value type
    with Python's truthiness.  External collaborators (the transcript
    service, the company search, the language model, the clock) are oracles;
    everything the program does to the outside world (HTTP requests, sleeps,
    notices and rendered elements) is appended to a log that is threaded
    through a state-and-exception monad. *)

From Stdlib Require Import ZArith List String Ascii Bool Lia.
Import ListNotations.
Local Set Warnings "-register-all".
Local Open Scope string_scope.
Local Open Scope Z_scope.

(** ** Python values *)

(** The values [json.loads] and [response.json()] produce.  JSON numbers are
    restricted to integers; a dict is kept as the member list of the
    document, in order.  A string is a sequence of code points below 256:
    all of a header value, which [http.client] decodes as Latin-1, and the
    Latin-1 strings among those of a JSON document. *)
Inductive value : Type :=
| VNone
| VBool (b : bool)
| VInt (n : Z)
| VStr (s : string)
| VList (items : list value)
| VDict (members : list (string * value)).

(** [bool(v)] *)
Definition truthy (v : value) : bool :=
  match v with
  | VNone => false
  | VBool b => b
  | VInt n => negb (n =? 0)
  | VStr s => negb (s =? "")%string
  | VList items => match items with [] => false | _ :: _ => true end
  | VDict members => match members with [] => false | _ :: _ => true end
  end.

(** [a or b] *)
Definition py_or (a b : value) : value := if truthy a then a else b.

(** [a and b], as a condition *)
Definition py_and (a b : value) : value := if truthy a then b else a.

Inductive exn : Type :=
| RequestException
| ValueError
| TypeError
| KeyError
| IndexError
| AttributeError
| OverflowError
| APIError.

Definition exn_eqb (a b : exn) : bool :=
  match a, b with
  | RequestException, RequestException
  | ValueError, ValueError
  | TypeError, TypeError
  | KeyError, KeyError
  | IndexError, IndexError
  | AttributeError, AttributeError
  | OverflowError, OverflowError
  | APIError, APIError => true
  | _, _ => false
  end.

Inductive result (A : Type) : Type :=
| Ok (a : A)
| Raise (e : exn).
Arguments Ok {A} a.
Arguments Raise {A} e.

(** A dict built from a JSON document keeps the last member of a repeated
    key. *)
Fixpoint dict_lookup (key : string) (members : list (string * value)) : option value :=
  match members with
  | [] => None
  | (k, v) :: rest =>
      match dict_lookup key rest with
      | Some v' => Some v'
      | None => if (k =? key)%string then Some v else None
      end
  end.

(** [d.get(key)] *)
Definition py_get (d : value) (key : string) : result value :=
  match d with
  | VDict members =>
      match dict_lookup key members with
      | Some v => Ok v
      | None => Ok VNone
      end
  | _ => Raise AttributeError
  end.

(** [v[key]] for a string key *)
Definition py_getitem (v : value) (key : string) : result value :=
  match v with
  | VDict members =>
      match dict_lookup key members with
      | Some x => Ok x
      | None => Raise KeyError
      end
  | _ => Raise TypeError
  end.

(** [v[0]] *)
Definition py_first (v : value) : result value :=
  match v with
  | VList (x :: _) => Ok x
  | VList [] => Raise IndexError
  | VStr (String c _) => Ok (VStr (String c ""))
  | VStr EmptyString => Raise IndexError
  | VDict _ => Raise KeyError
  | _ => Raise TypeError
  end.

(** [v - 1] *)
Definition py_decrement (v : value) : result value :=
  match v with
  | VInt n => Ok (VInt (n - 1))
  | VBool b => Ok (VInt ((if b then 1 else 0) - 1))
  | _ => Raise TypeError
  end.

(** [v == n] for an integer [n] *)
Definition py_eq_int (v : value) (n : Z) : bool :=
  match v with
  | VInt m => m =? n
  | VBool b => (if b then 1 else 0) =? n
  | _ => false
  end.

(** ** White space

    Two library functions skip white space, each with a set of its own. *)

(** What [int] skips around a number: the white space of C (tab to
    carriage return, and the space), and the two white-space characters
    from 128 on, U+0085 and U+00A0, which it turns into spaces first.  The
    separators 28 to 31 are not among them. *)
Definition int_space (c : ascii) : bool :=
  let n := nat_of_ascii c in
  ((9 <=? n) && (n <=? 13) || (n =? 32) || (n =? 133) || (n =? 160))%nat.

(** What [\s] matches in a pattern on [str]: the characters [str.isspace]
    holds of, the separators 28 to 31 among them. *)
Definition regex_space (c : ascii) : bool :=
  let n := nat_of_ascii c in
  ((9 <=? n) && (n <=? 13) || (28 <=? n) && (n <=? 32)
   || (n =? 133) || (n =? 160))%nat.

(** ** [int(str)] *)

Definition digit_of (c : ascii) : option Z :=
  let n := nat_of_ascii c in
  if ((48 <=? n) && (n <=? 57))%nat then Some (Z.of_nat n - 48) else None.

Fixpoint lstrip (space : ascii -> bool) (s : string) : string :=
  match s with
  | String c rest => if space c then lstrip space rest else s
  | EmptyString => EmptyString
  end.

Fixpoint all_space (space : ascii -> bool) (s : string) : bool :=
  match s with
  | String c rest => space c && all_space space rest
  | EmptyString => true
  end.

(** [sys.get_int_max_str_digits()], which the program leaves at its
    default: [int] refuses a string with more digits. *)
Definition max_str_digits : Z := 4300.

(** Digits with single underscores between them, then optional trailing
    white space.  [after_digit] says whether the previous character was a
    digit, [digits] how many digits were read. *)
Fixpoint int_digits (s : string) (acc : Z) (after_digit : bool) (digits : Z)
    : option Z :=
  match s with
  | EmptyString =>
      if after_digit && (digits <=? max_str_digits) then Some acc else None
  | String c rest =>
      match digit_of c with
      | Some d => int_digits rest (10 * acc + d) true (digits + 1)
      | None =>
          if after_digit then
            if (c =? "_")%char then
              match rest with
              | String c' _ =>
                  match digit_of c' with
                  | Some _ => int_digits rest acc false digits
                  | None => None
                  end
              | EmptyString => None
              end
            else if all_space int_space s && (digits <=? max_str_digits)
                 then Some acc else None
          else None
      end
  end.

Definition py_int (s : string) : result Z :=
  let parsed :=
    match lstrip int_space s with
    | String "-" rest => option_map Z.opp (int_digits rest 0 false 0)
    | String "+" rest => int_digits rest 0 false 0
    | body => int_digits body 0 false 0
    end in
  match parsed with
  | Some n => Ok n
  | None => Raise ValueError
  end.

(** ** The outside world *)

(** What the program tells the user through [st.info], [st.warning] and
    [st.error]. *)
Inductive notice : Type :=
| YearNotSpecified
| NoTranscriptsFound (transcript_year : value)
| RateLimitExceeded (retry_after attempt max_retries : Z)
| RequestFailed
| MaxYearRetriesExceeded
| UnableToFetch.

(** Naive [datetime] values: microseconds since 0001-01-01 00:00:00. *)
Definition datetime : Type := Z.

Record figure : Type := {
  fig_ticker : value;
  fig_marker : datetime;
  fig_range : datetime * datetime
}.

(** The parts of the report, in the order [main] renders them. *)
Inductive element : Type :=
| Title
| Intro
| Subheader (symbol date : value)
| AnalysisHeading
| PlotlyChart (fig : figure)
| AnalysisText (analysis : value)
| FullTranscript (content : value).

Inductive event : Type :=
| Get (single_ticker transcript_year : value)
| Sleep (seconds : Z)
| Search (company_name : value)
| Extract (user_input : string)
| Analyze (content : value)
| Download (ticker : value) (start_date end_date : datetime)
| Info (n : notice)
| Warning (n : notice)
| Error (n : notice)
| Show (e : element).

(** [fetches] counts the requests made to the transcript service so far. *)
Record world : Type := { fetches : nat; log : list event }.

Definition genesis : world := {| fetches := 0; log := [] |}.

Definition emit (e : event) (w : world) : world :=
  {| fetches := fetches w; log := log w ++ [e] |}.

(** ** State and exceptions *)

Definition M (A : Type) : Type := world -> result A * world.

Definition ret {A} (a : A) : M A := fun w => (Ok a, w).

Definition raise {A} (e : exn) : M A := fun w => (Raise e, w).

Definition bind {A B} (c : M A) (k : A -> M B) : M B :=
  fun w =>
    match c w with
    | (Ok a, w') => k a w'
    | (Raise e, w') => (Raise e, w')
    end.

Definition lift {A} (r : result A) : M A := fun w => (r, w).

Definition tell (e : event) : M unit := fun w => (Ok tt, emit e w).

(** [try: body except e: handler] *)
Definition try_except {A} (body : M A) (e : exn) (handler : M A) : M A :=
  fun w =>
    match body w with
    | (Raise e', w') => if exn_eqb e e' then handler w' else (Raise e', w')
    | done => done
    end.

Declare Scope monad_scope.
Delimit Scope monad_scope with monad.
Notation "x <- c ;; k" := (bind c (fun x => k))
  (at level 61, c at next level, right associativity) : monad_scope.
Notation "c ;; k" := (bind c (fun _ => k))
  (at level 61, right associativity) : monad_scope.
Local Open Scope monad_scope.

(** The longest sleep in seconds: [time.sleep] turns the length into
    nanoseconds in 64 bits, and [(2 ** 63 - 1) // 10 ** 9] is this. *)
Definition max_sleep : Z := 9223372036.

(** [time.sleep] raises [OverflowError] for a length whose nanoseconds do
    not fit, on either side, and then refuses a negative length. *)
Definition time_sleep (seconds : Z) : M unit :=
  if (seconds <? - max_sleep) || (max_sleep <? seconds) then raise OverflowError
  else if seconds <? 0 then raise ValueError
  else tell (Sleep seconds).

Definition st_info (n : notice) : M unit := tell (Info n).
Definition st_warning (n : notice) : M unit := tell (Warning n).
Definition st_error (n : notice) : M unit := tell (Error n).

(** ** HTTP *)

(** What the fetcher and the resolver read of a response: the status, the
    [Retry-After] header if there is one, and the body as [response.json()]
    returns it (the body is taken to be a JSON document). *)
Record response : Type := {
  status_code : Z;
  retry_after_header : option string;
  json : value
}.

(** A request either fails in transport ([requests.get] raises a
    [RequestException]) or yields a response. *)
Inductive reply : Type :=
| Unreachable
| Reply (r : response).

(** [response.raise_for_status()] *)
Definition raise_for_status (r : response) : M unit :=
  if (400 <=? status_code r) && (status_code r <? 600)
  then raise RequestException
  else ret tt.

(** [int(response.headers.get("Retry-After", 5))] *)
Definition retry_after_seconds (r : response) : result Z :=
  match retry_after_header r with
  | Some s => py_int s
  | None => Ok 5
  end.

(** ** The transcript fetcher *)

(** The three ways [get_transcripts] returns: line 101 with a transcript,
    line 114 after the last failed request, line 118 after the last year. *)
Inductive terminal : Type :=
| Found (transcript : value)
| Aborted
| NotFound.

Definition return_value (t : terminal) : value :=
  match t with
  | Found transcript => transcript
  | Aborted => VNone
  | NotFound => VNone
  end.

(** How one pass through the body of the inner loop ends. *)
Inductive flow : Type :=
| Next
| Break
| Return (t : terminal).

Section TranscriptFetcher.

(** The reply to the [n]-th request (counting from 0) for a ticker and a
    year. *)
Variable transcript_service : nat -> value -> value -> reply.

Definition requests_get (single_ticker transcript_year : value) : M response :=
  fun w =>
    let w' := {| fetches := S (fetches w);
                 log := log w ++ [Get single_ticker transcript_year] |} in
    match transcript_service (fetches w) single_ticker transcript_year with
    | Unreachable => (Raise RequestException, w')
    | Reply r => (Ok r, w')
    end.

Section OneYear.

Variables (single_ticker transcript_year : value) (max_retries : Z).

(** Lines 97-110, the body of [try]. *)
Definition attempt_try (attempt : Z) : M flow :=
  response <- requests_get single_ticker transcript_year ;;
  if status_code response =? 200 then
    match json response with
    | VList (first :: _) => ret (Return (Found first))
    | _ => st_warning (NoTranscriptsFound transcript_year) ;; ret Break
    end
  else if status_code response =? 429 then
    retry_after <- lift (retry_after_seconds response) ;;
    st_warning (RateLimitExceeded retry_after (attempt + 1) max_retries) ;;
    time_sleep retry_after ;;
    ret Next
  else
    raise_for_status response ;;
    ret Next.

(** Lines 111-115, the handler. *)
Definition attempt_except (attempt : Z) : M flow :=
  st_error RequestFailed ;;
  if attempt + 1 =? max_retries then ret (Return Aborted)
  else time_sleep (2 ^ attempt) ;; ret Next.

Definition attempt_body (attempt : Z) : M flow :=
  try_except (attempt_try attempt) RequestException (attempt_except attempt).

(** [for attempt in range(max_retries)], with [remaining] iterations to
    go.  [Some t]: the function returned [t]; [None]: the loop was left
    by [break] or ran out. *)
Fixpoint for_attempts (remaining : nat) (attempt : Z) : M (option terminal) :=
  match remaining with
  | O => ret None
  | S remaining' =>
      f <- attempt_body attempt ;;
      match f with
      | Next => for_attempts remaining' (attempt + 1)
      | Break => ret None
      | Return t => ret (Some t)
      end
  end.

End OneYear.

(** [for _ in range(year_retries)], with [remaining] iterations to go.
    The result carries the final value of the local [transcript_year]. *)
Fixpoint for_years (single_ticker : value) (max_retries : Z)
    (remaining : nat) (transcript_year : value) : M (terminal * value) :=
  match remaining with
  | O => st_error MaxYearRetriesExceeded ;; ret (NotFound, transcript_year)
  | S remaining' =>
      r <- for_attempts single_ticker transcript_year max_retries
             (Z.to_nat max_retries) 0 ;;
      match r with
      | Some t => ret (t, transcript_year)
      | None =>
          transcript_year' <- lift (py_decrement transcript_year) ;;
          for_years single_ticker max_retries remaining' transcript_year'
      end
  end.

Definition get_transcripts_run (single_ticker transcript_year : value)
    (max_retries year_retries : Z) : M (terminal * value) :=
  for_years single_ticker max_retries (Z.to_nat year_retries) transcript_year.

Definition get_transcripts (single_ticker transcript_year : value)
    (max_retries year_retries : Z) : M value :=
  r <- get_transcripts_run single_ticker transcript_year max_retries year_retries ;;
  ret (return_value (fst r)).

End TranscriptFetcher.

(** ** Reading a log *)

Definition sleeps (l : list event) : list Z :=
  flat_map (fun e => match e with Sleep n => [n] | _ => [] end) l.

Definition requested (l : list event) : list (value * value) :=
  flat_map (fun e => match e with Get t y => [(t, y)] | _ => [] end) l.

Definition errors (l : list event) : list notice :=
  flat_map (fun e => match e with Error n => [n] | _ => [] end) l.

Definition shown (l : list event) : list element :=
  flat_map (fun e => match e with Show x => [x] | _ => [] end) l.

Definition analyses (l : list event) : list value :=
  flat_map (fun e => match e with Analyze c => [c] | _ => [] end) l.

(** ** Dates *)

Definition microsecond : Z := 1.
Definition second : Z := 1000000 * microsecond.
Definition day : Z := 86400 * second.

(** [timedelta(days=n)] *)
Definition timedelta_days (n : Z) : Z := n * day.

Definition is_leap (y : Z) : bool :=
  (y mod 4 =? 0) && (negb (y mod 100 =? 0) || (y mod 400 =? 0)).

Definition days_in_month (y m : Z) : Z :=
  match m with
  | 2 => if is_leap y then 29 else 28
  | 4 | 6 | 9 | 11 => 30
  | _ => 31
  end.

Definition days_before_year (y : Z) : Z :=
  let p := y - 1 in p * 365 + p / 4 - p / 100 + p / 400.

Definition days_before_month (y m : Z) : Z :=
  fold_left (fun acc k => acc + days_in_month y (Z.of_nat k))
            (seq 1 (Z.to_nat (m - 1))) 0.

(** [datetime(y, m, d, hour, minute, sec)], which refuses fields out of
    range. *)
Definition make_datetime (y m d hour minute sec : Z) : option datetime :=
  if (1 <=? y) && (y <=? 9999) && (1 <=? m) && (m <=? 12)
     && (1 <=? d) && (d <=? days_in_month y m)
     && (0 <=? hour) && (hour <=? 23) && (0 <=? minute) && (minute <=? 59)
     && (0 <=? sec) && (sec <=? 59)
  then Some ((days_before_year y + days_before_month y m + (d - 1)) * day
             + (hour * 3600 + minute * 60 + sec) * second)
  else None.

(** 9999-12-31 23:59:59.999999 *)
Definition datetime_max : datetime := days_before_year 10000 * day - microsecond.

(** [d + delta], which refuses a result outside years 1 to 9999. *)
Definition datetime_add (d : datetime) (delta : Z) : result datetime :=
  let r := d + delta in
  if (0 <=? r) && (r <=? datetime_max) then Ok r else Raise OverflowError.

(** *** [datetime.strptime]

    A directive matches its two-character alternatives before its
    one-character one; because every directive of the two formats used here
    is followed by a character that is no digit (or by the end of the
    string), the first alternative that matches is the only one that can. *)

Definition digits1 (s : string) : option (Z * string) :=
  match s with
  | String a rest => option_map (fun x => (x, rest)) (digit_of a)
  | EmptyString => None
  end.

Definition digits2 (s : string) : option (Z * string) :=
  match s with
  | String a (String b rest) =>
      match digit_of a, digit_of b with
      | Some x, Some y => Some (10 * x + y, rest)
      | _, _ => None
      end
  | _ => None
  end.

(** Two characters giving a number in [lo2..hi2], or else one character
    giving a number of at least [lo1]. *)
Definition field (lo2 hi2 lo1 : Z) (s : string) : option (Z * string) :=
  let one :=
    match digits1 s with
    | Some (n, rest) => if lo1 <=? n then Some (n, rest) else None
    | None => None
    end in
  match digits2 s with
  | Some (n, rest) => if (lo2 <=? n) && (n <=? hi2) then Some (n, rest) else one
  | None => one
  end.

(** [%Y]: exactly four digits *)
Definition field_Y (s : string) : option (Z * string) :=
  match digits2 s with
  | Some (hi, rest) =>
      match digits2 rest with
      | Some (lo, rest') => Some (100 * hi + lo, rest')
      | None => None
      end
  | None => None
  end.

Definition field_m : string -> option (Z * string) := field 1 12 1.

(** [%d] also takes a space followed by one digit. *)
Definition field_d (s : string) : option (Z * string) :=
  match field 1 31 1 s with
  | Some r => Some r
  | None =>
      match s with
      | String " " rest =>
          match digits1 rest with
          | Some (n, rest') => if 1 <=? n then Some (n, rest') else None
          | None => None
          end
      | _ => None
      end
  end.

Definition field_H : string -> option (Z * string) := field 0 23 0.
Definition field_M : string -> option (Z * string) := field 0 59 0.
Definition field_S : string -> option (Z * string) := field 0 61 0.

Definition expect (c : ascii) (s : string) : option string :=
  match s with
  | String c' rest => if (c =? c')%char then Some rest else None
  | EmptyString => None
  end.

(** White space in a format matches one or more white-space characters. *)
Definition expect_spaces (s : string) : option string :=
  match s with
  | String c rest =>
      if regex_space c then Some (lstrip regex_space rest) else None
  | EmptyString => None
  end.

Definition at_end (s : string) : option unit :=
  match s with
  | EmptyString => Some tt
  | String _ _ => None
  end.

Definition obind {A B} (o : option A) (k : A -> option B) : option B :=
  match o with
  | Some a => k a
  | None => None
  end.

Notation "'let?' x := o 'in' k" := (obind o (fun x => k))
  (at level 10, x pattern, k at level 200).

(** The prefix ["%Y-%m-%d"] of both formats. *)
Definition parse_date (s : string) : option (Z * Z * Z * string) :=
  let? (y, s) := field_Y s in
  let? s := expect "-" s in
  let? (m, s) := field_m s in
  let? s := expect "-" s in
  let? (d, s) := field_d s in
  Some (y, m, d, s).

(** [datetime.strptime(s, "%Y-%m-%d %H:%M:%S")] *)
Definition strptime_date_time (s : string) : option datetime :=
  let? (y, m, d, s) := parse_date s in
  let? s := expect_spaces s in
  let? (hour, s) := field_H s in
  let? s := expect ":" s in
  let? (minute, s) := field_M s in
  let? s := expect ":" s in
  let? (sec, s) := field_S s in
  let? _ := at_end s in
  make_datetime y m d hour minute sec.

(** [datetime.strptime(s, "%Y-%m-%d")] *)
Definition strptime_date (s : string) : option datetime :=
  let? (y, m, d, s) := parse_date s in
  let? _ := at_end s in
  make_datetime y m d 0 0 0.

(** Lines 146-151: the format with a time first, the bare date when that
    raises [ValueError]. *)
Definition parse_earnings_date (earnings_date : value) : result datetime :=
  match earnings_date with
  | VStr s =>
      match strptime_date_time s with
      | Some d => Ok d
      | None =>
          match strptime_date s with
          | Some d => Ok d
          | None => Raise ValueError
          end
      end
  | _ => Raise TypeError
  end.

(** ** The language model *)

(** A chat completion: the message content and the tool calls of the first
    choice.  The arguments of a tool call are text; they are given here as
    [json.loads] sees them, [None] when they are no JSON document. *)
Inductive completion : Type :=
| ApiFailure
| Completion (content : value) (tool_calls : option (list (option value))).

(** ** The pipeline *)

Section Pipeline.

Variable chat_with_tools : string -> completion.
Variable chat_analysis : value -> completion.
Variable search_service : value -> reply.
Variable transcript_service : nat -> value -> value -> reply.
(** [datetime.now().year] at line 75 and [datetime.now()] at line 157 *)
Variable this_year : Z.
Variable now : datetime.

Definition extract_year_and_ticker (user_input : string) : M (value * value) :=
  tell (Extract user_input) ;;
  match chat_with_tools user_input with
  | ApiFailure => raise APIError
  | Completion _ None => raise TypeError
  | Completion _ (Some []) => raise IndexError
  | Completion _ (Some (None :: _)) => raise ValueError
  | Completion _ (Some (Some arguments :: _)) =>
      year <- lift (py_get arguments "year") ;;
      ticker_or_company <- lift (py_get arguments "ticker_or_company") ;;
      (if py_eq_int year this_year then st_info YearNotSpecified else ret tt) ;;
      ret (year, ticker_or_company)
  end.

Definition convert_company_to_ticker (company_name : value) : M value :=
  tell (Search company_name) ;;
  match search_service company_name with
  | Unreachable => raise RequestException
  | Reply response =>
      if status_code response =? 200 then
        let data := json response in
        if truthy data then
          top <- lift (py_first data) ;;
          lift (py_getitem top "symbol")
        else ret VNone
      else ret VNone
  end.

(** Line 137: [convert_company_to_ticker(ticker_or_company) or
    ticker_or_company] *)
Definition resolve_ticker (ticker_or_company : value) : M value :=
  converted <- convert_company_to_ticker ticker_or_company ;;
  ret (py_or converted ticker_or_company).

Definition analyze_transcript (transcript : value) : M value :=
  content <- lift (py_getitem transcript "content") ;;
  tell (Analyze content) ;;
  match chat_analysis content with
  | ApiFailure => raise APIError
  | Completion answer _ => ret answer
  end.

Definition process_user_input (user_input : string) : M (value * value) :=
  extracted <- extract_year_and_ticker user_input ;;
  ticker <- resolve_ticker (snd extracted) ;;
  transcript <- get_transcripts transcript_service ticker (fst extracted) 5 3 ;;
  if truthy transcript then
    analysis <- analyze_transcript transcript ;;
    ret (transcript, analysis)
  else ret (VNone, VNone).

(** The figure keeps what the claims are about: the ticker, the marker
    and the range of the date axis, which is also the range asked of the
    price source. *)
Definition generate_price_chart (ticker earnings_date year : value) : M figure :=
  earnings_date <- lift (parse_earnings_date earnings_date) ;;
  start_date <- lift (datetime_add earnings_date (- timedelta_days 30)) ;;
  later <- lift (datetime_add earnings_date (timedelta_days 30)) ;;
  let end_date := Z.min later now in
  tell (Download ticker start_date end_date) ;;
  ret {| fig_ticker := ticker;
         fig_marker := earnings_date;
         fig_range := (start_date, end_date) |}.

Definition main (user_input : string) : M unit :=
  tell (Show Title) ;;
  tell (Show Intro) ;;
  if negb (user_input =? "")%string then
    processed <- process_user_input user_input ;;
    let transcript := fst processed in
    let analysis := snd processed in
    if truthy (py_and transcript analysis) then
      symbol <- lift (py_getitem transcript "symbol") ;;
      date <- lift (py_getitem transcript "date") ;;
      tell (Show (Subheader symbol date)) ;;
      tell (Show AnalysisHeading) ;;
      symbol <- lift (py_getitem transcript "symbol") ;;
      date <- lift (py_getitem transcript "date") ;;
      year <- lift (py_getitem transcript "year") ;;
      chart <- generate_price_chart symbol date year ;;
      tell (Show (PlotlyChart chart)) ;;
      tell (Show (AnalysisText analysis)) ;;
      content <- lift (py_getitem transcript "content") ;;
      tell (Show (FullTranscript content))
    else st_error UnableToFetch
  else ret tt.

End Pipeline.

(** * Vocabulary of the properties *)

(** ** Worlds, responses and logs *)

(** The world after one more request for [(t, y)] and the events [evs] that
    followed it. *)
Definition after_request (t y : value) (evs : list event) (w : world) : world :=
  {| fetches := S (fetches w); log := log w ++ Get t y :: evs |}.

Definition ok_response (body : value) : response :=
  {| status_code := 200; retry_after_header := None; json := body |}.

Definition rate_limited (header : option string) : response :=
  {| status_code := 429; retry_after_header := header; json := VNone |}.

(** Events that follow a request inside one pass of the retry loop. *)
Definition quiet (e : event) : Prop :=
  match e with
  | Sleep _ | Warning _ | Error _ => True
  | _ => False
  end.

(** Events of the fetcher. *)
Definition fetcher_event (e : event) : Prop :=
  match e with
  | Get _ _ | Sleep _ | Warning _ | Error _ => True
  | _ => False
  end.

(** From [w] to [w'] nothing was shown and nothing was analysed. *)
Definition same_report (w w' : world) : Prop :=
  shown (log w') = shown (log w) /\ analyses (log w') = analyses (log w).

(** [k] failed attempts that back off, then the one that gives up. *)
Fixpoint backoff_log (t yv : value) (a : Z) (k : nat) : list event :=
  match k with
  | O => [Get t yv; Error RequestFailed]
  | S k' =>
      Get t yv :: Error RequestFailed :: Sleep (2 ^ a)
        :: backoff_log t yv (a + 1) k'
  end.

(** The requests of [n] passes of the year loop that start at [yv]: some
    for [yv], then some for [yv - 1], and so on. *)
Fixpoint candidate_years (t : value) (max_retries : Z) (yv : value) (n : nat)
    (reqs : list (value * value)) : Prop :=
  match n with
  | O => reqs = []
  | S n' =>
      exists (a : nat) (rest : list (value * value)),
        reqs = (repeat (t, yv) a ++ rest)%list
        /\ (a <= Z.to_nat max_retries)%nat
        /\ match py_decrement yv with
           | Ok yv' => candidate_years t max_retries yv' n' rest
           | Raise _ => rest = []
           end
  end.

(** [arguments.get(key)] on the members of the arguments. *)
Definition argument (key : string) (members : list (string * value)) : value :=
  match dict_lookup key members with
  | Some v => v
  | None => VNone
  end.

(** ** Scenarios *)

(** *** Transcript services *)

Definition always_unreachable : nat -> value -> value -> reply :=
  fun _ _ _ => Unreachable.

Definition always_rate_limited : nat -> value -> value -> reply :=
  fun _ _ _ => Reply (rate_limited None).

Definition never_any_transcript : nat -> value -> value -> reply :=
  fun _ _ _ => Reply (ok_response (VList [])).

Definition transcript_2022 : value :=
  VDict [("symbol", VStr "AAPL"); ("date", VStr "2022-07-28 17:00:00");
         ("year", VInt 2022); ("content", VStr "Good afternoon.")].

Definition only_2022 : nat -> value -> value -> reply :=
  fun _ _ yv =>
    match yv with
    | VInt 2022 => Reply (ok_response (VList [transcript_2022]))
    | _ => Reply (ok_response (VList []))
    end.


Definition http_date : string := "Wed, 21 Oct 2015 07:28:00 GMT".

Definition limited_until_date : nat -> value -> value -> reply :=
  fun _ _ _ => Reply (rate_limited (Some http_date)).

(** *** Search services *)

Definition unreachable_search : value -> reply := fun _ => Unreachable.

Definition apple_search : value -> reply :=
  fun company_name =>
    match company_name with
    | VStr "Apple" =>
        Reply (ok_response
                 (VList [VDict [("symbol", VStr "AAPL");
                                ("name", VStr "Apple Inc.")]]))
    | VStr "Nonesuch" => Reply (ok_response (VList []))
    | _ => Reply {| status_code := 500; retry_after_header := None;
                    json := VNone |}
    end.

(** *** Language models and queries *)

(** The tool call the system prompt itself gives as its example: the key is
    [ticker], not [ticker_or_company]. *)
Definition prompt_example : string -> completion :=
  fun _ =>
    Completion VNone
      (Some [Some (VDict [("ticker", VStr "MSFT"); ("year", VInt 2024)])]).

Definition well_behaved_chat : string -> completion :=
  fun _ =>
    Completion VNone
      (Some [Some (VDict [("year", VInt 2024);
                          ("ticker_or_company", VStr "Microsoft")])]).

Definition apple_chat : string -> completion :=
  fun _ =>
    Completion VNone
      (Some [Some (VDict [("year", VInt 2024);
                          ("ticker_or_company", VStr "Apple")])]).

Definition analyst : value -> completion :=
  fun _ => Completion (VStr "A cautious quarter.") None.

Definition apple_query : string := "Analyze Apple's latest earnings call".

(** *** Clocks *)

(** 2024-08-10 09:30:00, eleven days after the call of 2024-07-30. *)
Definition soon_after : datetime := 63858879000000000.

(** 2024-10-01 00:00:00, more than 30 days after the call of 2024-07-30. *)
Definition long_after : datetime := 63863337600000000.

(** ** Vocabulary of the further properties *)

(** A reply the handler of [get_transcripts] gets to see: no connection, or
    a status [raise_for_status] raises for (a 4xx or 5xx other than 429). *)
Definition failing (r : reply) : Prop :=
  r = Unreachable
  \/ exists resp, r = Reply resp
                  /\ 400 <= status_code resp < 600
                  /\ status_code resp <> 429.

(** A status neither branch of [get_transcripts] reacts to: not 200, not
    429, and none [raise_for_status] raises for. *)
Definition unremarkable (status : Z) : Prop :=
  status <> 200 /\ status <> 429 /\ (status < 400 \/ 600 <= status).


(** [n] passes of the year loop from year [y] down, none of which returns:
    what each adds to the log, then the final error notice. *)
Fixpoint years_log (per_year : Z -> list event) (y : Z) (n : nat)
    : list event :=
  match n with
  | O => [Error MaxYearRetriesExceeded]
  | S n' => (per_year y ++ years_log per_year (y - 1) n')%list
  end.

Definition infos (l : list event) : list notice :=
  flat_map (fun e => match e with Info n => [n] | _ => [] end) l.

Definition searches (l : list event) : list value :=
  flat_map (fun e => match e with Search c => [c] | _ => [] end) l.

Definition extractions (l : list event) : list string :=
  flat_map (fun e => match e with Extract q => [q] | _ => [] end) l.

Definition downloads (l : list event) : list (value * datetime * datetime) :=
  flat_map (fun e => match e with Download t a b => [(t, a, b)] | _ => [] end) l.

(** A body of a 200 response that is no non-empty list. *)
Definition no_transcripts (body : value) : Prop :=
  forall first rest, body <> VList (first :: rest).

(** *** Further transcript services *)

Definition with_status (status : Z) : response :=
  {| status_code := status; retry_after_header := None; json := VNone |}.

Definition always_server_error : nat -> value -> value -> reply :=
  fun _ _ _ => Reply (with_status 503).

Definition always_no_content : nat -> value -> value -> reply :=
  fun _ _ _ => Reply (with_status 204).

Definition always_limited_for (header : string) : nat -> value -> value -> reply :=
  fun _ _ _ => Reply (rate_limited (Some header)).

Definition error_message : value :=
  VDict [("Error Message", VStr "Invalid API KEY.")].

Definition always_error_message : nat -> value -> value -> reply :=
  fun _ _ _ => Reply (ok_response error_message).

(** *** Further search services *)

Definition search_replying (body : value) : value -> reply :=
  fun _ => Reply (ok_response body).

(** *** Further language models *)


Definition silent_analyst : value -> completion :=
  fun _ => Completion VNone None.

(** *** Counting what a run adds to the log *)

(** [evs] holds calls for extraction for the queries [qs] and no other, at
    most [s] searches, [r] transcript requests and [a] analyses, and
    nothing is shown or downloaded. *)
Definition within (qs : list string) (s r a : nat) (evs : list event) : Prop :=
  extractions evs = qs
  /\ (List.length (searches evs) <= s)%nat
  /\ (List.length (requested evs) <= r)%nat
  /\ (List.length (analyses evs) <= a)%nat
  /\ shown evs = []
  /\ downloads evs = [].

(** The log of [w'] is the log of [w] followed by such events. *)
Definition reached (w w' : world) (qs : list string) (s r a : nat) : Prop :=
  exists evs, log w' = (log w ++ evs)%list /\ within qs s r a evs.

(** The world in which [main] calls [process_user_input]: the title and the
    introduction are on the page. *)
Definition page_opened (w : world) : world :=
  emit (Show Intro) (emit (Show Title) w).

(** The world in which [main] calls [generate_price_chart]: the header and
    the heading of the report are on the page. *)
Definition header_shown (symbol date : value) (w : world) : world :=
  emit (Show AnalysisHeading) (emit (Show (Subheader symbol date)) w).

(** A transcript whose date is no date. *)
Definition undated_transcript : value :=
  VDict [("symbol", VStr "AAPL"); ("date", VStr "Q3 2022");
         ("year", VInt 2022); ("content", VStr "Good afternoon.")].

Definition only_undated : nat -> value -> value -> reply :=
  fun _ _ _ => Reply (ok_response (VList [undated_transcript])).

(** 2022-06-01 12:00:00, eight weeks before the call of 2022-07-28. *)
Definition long_before : datetime := 63789681600000000.

(** *** Writing dates the way the transcript service does *)

Definition digit_char (d : Z) : ascii := ascii_of_nat (48 + Z.to_nat d).

(** [n] as two characters, after which [rest] follows. *)
Definition two_digits (n : Z) (rest : string) : string :=
  String (digit_char (n / 10)) (String (digit_char (n mod 10)) rest).

(** ["YYYY-MM-DD"], then [rest] *)
Definition iso_date (y m d : Z) (rest : string) : string :=
  two_digits (y / 100) (two_digits (y mod 100)
    (String "-" (two_digits m (String "-" (two_digits d rest))))).

(** ["YYYY-MM-DD HH:MM:SS"] *)
Definition iso_date_time (y m d hour minute sec : Z) : string :=
  iso_date y m d
    (String " " (two_digits hour
       (String ":" (two_digits minute (String ":" (two_digits sec "")))))).

(** *** Further logs *)

(** [k] years without transcripts, from [y] down, then the request that
    finds one. *)
Fixpoint fallback_log (t : value) (y : Z) (k : nat) : list event :=
  match k with
  | O => [Get t (VInt y)]
  | S k' =>
      Get t (VInt y) :: Warning (NoTranscriptsFound (VInt y))
        :: fallback_log t (y - 1) k'
  end.

(** Seconds slept in all. *)
Definition total (seconds : list Z) : Z := fold_right Z.add 0 seconds.

(** A service that has transcripts up to [last] only. *)
Definition nothing_after (last : Z) : nat -> value -> value -> reply :=
  fun _ _ yv =>
    match yv with
    | VInt y =>
        if y <=? last then Reply (ok_response (VList [transcript_2022]))
        else Reply (ok_response (VList []))
    | _ => Reply (ok_response (VList []))
    end.

(** *** Characters and strings at the edges of the library functions *)

(** U+00A0, no-break space *)
Definition nbsp : ascii := ascii_of_nat 160.

(** U+0085, next line *)
Definition nel : ascii := ascii_of_nat 133.

(** U+001C, file separator *)
Definition file_separator : ascii := ascii_of_nat 28.

(** [n] times the digit 1 *)
Fixpoint ones (n : nat) : string :=
  match n with
  | O => EmptyString
  | S n' => String "1" (ones n')
  end.

(** * Properties *)

(** ** The library functions at their edges *)

(** [int] skips U+00A0 and U+0085 but not the separators 28 to 31, takes
    signs and single underscores, and refuses more than 4300 digits. *)
Lemma py_int_at_its_edges :
  py_int (String nbsp "7") = Ok 7
  /\ py_int (String nel "7") = Ok 7
  /\ py_int (String "7" (String nbsp "")) = Ok 7
  /\ py_int (String file_separator "7") = Raise ValueError
  /\ py_int (String "7" (String file_separator "")) = Raise ValueError
  /\ py_int " +1_000 " = Ok 1000
  /\ py_int "1__0" = Raise ValueError
  /\ py_int "- 1" = Raise ValueError
  /\ (exists n, py_int (ones 4300) = Ok n)
  /\ py_int (ones 4301) = Raise ValueError.
Proof.
  repeat split; try (vm_compute; reflexivity).
  eexists. vm_compute. reflexivity.
Qed.

(** [time.sleep] takes 0 to 9223372036 seconds. *)
Lemma time_sleep_at_its_edges (w : world) :
  time_sleep 0 w = (Ok tt, emit (Sleep 0) w)
  /\ time_sleep (2 ^ 33) w = (Ok tt, emit (Sleep (2 ^ 33)) w)
  /\ time_sleep 9223372036 w = (Ok tt, emit (Sleep 9223372036) w)
  /\ time_sleep 9223372037 w = (Raise OverflowError, w)
  /\ time_sleep (2 ^ 34) w = (Raise OverflowError, w)
  /\ time_sleep (-1) w = (Raise ValueError, w)
  /\ time_sleep (-9223372037) w = (Raise OverflowError, w).
Proof.
  repeat split.
Qed.

(** White space between date and time follows [\s] and not [int]: the
    separators 28 to 31 separate as well as U+00A0 does. *)
Lemma date_and_time_at_their_edges :
  parse_earnings_date
    (VStr (iso_date 2022 7 28 (String nbsp "17:00:00")))
    = Ok 63794624400000000
  /\ parse_earnings_date
       (VStr (iso_date 2022 7 28 (String file_separator "17:00:00")))
       = Ok 63794624400000000
  /\ parse_earnings_date (VStr "2022-07-28T17:00:00") = Raise ValueError.
Proof.
  repeat split.
Qed.

(** ** One pass through the retry loop *)

Ltac open_monad :=
  unfold attempt_body, try_except, attempt_try, attempt_except,
    requests_get, st_error, st_warning, st_info, time_sleep,
    raise_for_status;
  unfold tell, ret, raise, lift, bind, emit, after_request.

Ltac step_monad :=
  cbn beta iota delta [fetches log status_code retry_after_header json
                       exn_eqb ok_response rate_limited Z.eqb Pos.eqb].

Ltac run_monad := open_monad; step_monad.

Ltac same_world :=
  step_monad; rewrite <- ?app_assoc; cbn [app]; reflexivity.


Section FetcherSteps.

Variable svc : nat -> value -> value -> reply.
Variables (t y : value) (max_retries : Z).

(** [2 ** attempt] is never a negative sleep. *)
Lemma pow2_not_negative (a : Z) : (2 ^ a <? 0) = false.
Proof.
  apply Z.ltb_ge. apply Z.pow_nonneg. lia.
Qed.

(** Up to attempt 33 it is no sleep too long either. *)
Lemma pow2_not_too_long (a : Z) :
  a <= 33 -> ((2 ^ a <? - max_sleep) || (max_sleep <? 2 ^ a)) = false.
Proof.
  intros Ha. apply orb_false_iff.
  assert (H0 : 0 <= 2 ^ a) by (apply Z.pow_nonneg; lia).
  assert (H1 : 2 ^ a <= 2 ^ 33).
  { destruct (Z.lt_ge_cases a 0) as [Hneg|Hpos].
    - rewrite (Z.pow_neg_r 2 a Hneg). apply Z.pow_nonneg. lia.
    - apply Z.pow_le_mono_r; lia. }
  change (2 ^ 33) with 8589934592 in H1. unfold max_sleep.
  split; apply Z.ltb_ge; lia.
Qed.

(** From attempt 34 on it is. *)
Lemma pow2_too_long (a : Z) :
  34 <= a -> ((2 ^ a <? - max_sleep) || (max_sleep <? 2 ^ a)) = true.
Proof.
  intros Ha. apply orb_true_iff. right. apply Z.ltb_lt.
  assert (H1 : 2 ^ 34 <= 2 ^ a) by (apply Z.pow_le_mono_r; lia).
  change (2 ^ 34) with 17179869184 in H1. unfold max_sleep. lia.
Qed.


(** A transport failure before the last attempt: notice, back off, go on. *)
Lemma for_attempts_unreachable (k : nat) (a : Z) (w : world) :
  svc (fetches w) t y = Unreachable ->
  a + 1 <> max_retries ->
  a <= 33 ->
  for_attempts svc t y max_retries (S k) a w =
  for_attempts svc t y max_retries k (a + 1)
    (after_request t y [Error RequestFailed; Sleep (2 ^ a)] w).
Proof.
  intros Hsvc Hlast Ha. cbn [for_attempts]. run_monad. rewrite Hsvc.
  step_monad. apply Z.eqb_neq in Hlast. rewrite Hlast.
  rewrite (pow2_not_too_long a Ha), pow2_not_negative. same_world.
Qed.

(** A transport failure on the last attempt: notice, return. *)
Lemma for_attempts_unreachable_last (k : nat) (a : Z) (w : world) :
  svc (fetches w) t y = Unreachable ->
  a + 1 = max_retries ->
  for_attempts svc t y max_retries (S k) a w =
  (Ok (Some Aborted), after_request t y [Error RequestFailed] w).
Proof.
  intros Hsvc Hlast. cbn [for_attempts]. run_monad. rewrite Hsvc.
  step_monad. apply Z.eqb_eq in Hlast. rewrite Hlast. same_world.
Qed.

(** HTTP 200 with a body that is no non-empty list: warn, leave the loop. *)
Lemma for_attempts_nothing (k : nat) (a : Z) (w : world) (body : value) :
  svc (fetches w) t y = Reply (ok_response body) ->
  (forall first rest, body <> VList (first :: rest)) ->
  for_attempts svc t y max_retries (S k) a w =
  (Ok None, after_request t y [Warning (NoTranscriptsFound y)] w).
Proof.
  intros Hsvc Hbody. cbn [for_attempts]. run_monad. rewrite Hsvc.
  step_monad.
  destruct body as [| | | |items|]; try same_world.
  destruct items as [|first rest]; [same_world|].
  exfalso. exact (Hbody first rest eq_refl).
Qed.



(** HTTP 429 with a delay [int] refuses: the [ValueError] escapes. *)
Lemma for_attempts_bad_delay (k : nat) (a : Z) (w : world) (r : response) :
  svc (fetches w) t y = Reply r ->
  status_code r = 429 ->
  retry_after_seconds r = Raise ValueError ->
  for_attempts svc t y max_retries (S k) a w =
  (Raise ValueError, after_request t y [] w).
Proof.
  intros Hsvc Hstatus Hdelay. cbn [for_attempts]. run_monad.
  rewrite Hsvc. step_monad. rewrite Hstatus, Hdelay. step_monad.
  same_world.
Qed.

End FetcherSteps.

(** ** One pass through the year loop *)

Section YearSteps.

Variable svc : nat -> value -> value -> reply.
Variables (t : value) (max_retries : Z).

(** One pass of the year loop, by the way the retry loop ended. *)
Lemma for_years_unfold (n : nat) (yv : value) (w : world) :
  for_years svc t max_retries (S n) yv w =
  match for_attempts svc t yv max_retries (Z.to_nat max_retries) 0 w with
  | (Ok (Some term), w') => (Ok (term, yv), w')
  | (Ok None, w') =>
      match py_decrement yv with
      | Ok yv' => for_years svc t max_retries n yv' w'
      | Raise e => (Raise e, w')
      end
  | (Raise e, w') => (Raise e, w')
  end.
Proof.
  cbn [for_years]. unfold bind at 1.
  destruct (for_attempts svc t yv max_retries (Z.to_nat max_retries) 0 w)
    as [[[term|]|e] w']; reflexivity.
Qed.

(** [range(n)] is not empty when [n >= 1]. *)
Lemma at_least_one_attempt :
  1 <= max_retries -> exists k, Z.to_nat max_retries = S k.
Proof.
  intros Hmax. destruct (Z.to_nat max_retries) as [|k] eqn:E; [lia|].
  exists k. reflexivity.
Qed.

(** Nothing for this year: the next pass asks for the year before. *)
Lemma for_years_nothing (n : nat) (y : Z) (w : world) (body : value) :
  1 <= max_retries ->
  svc (fetches w) t (VInt y) = Reply (ok_response body) ->
  (forall first rest, body <> VList (first :: rest)) ->
  for_years svc t max_retries (S n) (VInt y) w =
  for_years svc t max_retries n (VInt (y - 1))
    (after_request t (VInt y) [Warning (NoTranscriptsFound (VInt y))] w).
Proof.
  intros Hmax Hsvc Hbody. destruct (at_least_one_attempt Hmax) as [k Hk].
  rewrite for_years_unfold, Hk.
  rewrite (for_attempts_nothing svc t (VInt y) max_retries k 0 w body Hsvc Hbody).
  reflexivity.
Qed.


(** *** Persistent transport failure *)

(** With [k + 1] attempts left and every request failing, the retry loop
    backs off [k] times and gives up at the last attempt; up to 35
    attempts no sleep is too long. *)
Lemma for_attempts_all_unreachable (yv : value) :
  (forall n, svc n t yv = Unreachable) ->
  max_retries <= 35 ->
  forall (k : nat) (a : Z) (w : world),
    a + Z.of_nat k + 1 = max_retries ->
    for_attempts svc t yv max_retries (S k) a w =
    (Ok (Some Aborted),
     {| fetches := S k + fetches w; log := log w ++ backoff_log t yv a k |}).
Proof.
  intros Hsvc Hfew. induction k as [|k IH]; intros a w Hlast.
  - rewrite for_attempts_unreachable_last by (auto; lia). reflexivity.
  - rewrite for_attempts_unreachable by (auto; lia).
    rewrite IH by lia. unfold after_request. cbn [fetches log backoff_log].
    rewrite <- app_assoc. cbn [app].
    rewrite <- plus_n_Sm. reflexivity.
Qed.

End YearSteps.

(** ** The claims about the fetcher *)

(** For any number of attempts from 1 to 35, requests that all fail in
    transport end the fetch at line 114 within the requested year: the
    local [transcript_year] is untouched and every request was for it. *)
Lemma transport_exhaustion_aborts
    (svc : nat -> value -> value -> reply) (t yv : value)
    (max_retries year_retries : Z) (w : world) :
  (forall n, svc n t yv = Unreachable) ->
  1 <= max_retries <= 35 ->
  1 <= year_retries ->
  get_transcripts_run svc t yv max_retries year_retries w =
    (Ok (Aborted, yv),
     {| fetches := Z.to_nat max_retries + fetches w;
        log := log w ++ backoff_log t yv 0 (Z.to_nat max_retries - 1) |}).
Proof.
  intros Hsvc [Hmax Hfew] Hyears. unfold get_transcripts_run.
  destruct (at_least_one_attempt year_retries Hyears) as [n Hn]. rewrite Hn.
  destruct (at_least_one_attempt max_retries Hmax) as [k Hk].
  rewrite for_years_unfold, Hk.
  rewrite (for_attempts_all_unreachable svc t max_retries yv Hsvc Hfew k 0 w)
    by lia.
  replace (S k - 1)%nat with k by lia. reflexivity.
Qed.

(** C1 (as amended). If every request fails in transport, [get_transcripts]
    with [max_retries = 5] makes exactly five requests, all for the
    requested year, sleeps 1, 2, 4 and 8 seconds (after each of the first
    four failures, none after the fifth), and returns at line 114 without
    trying an earlier year. *)
Theorem transport_failures_abort_after_five_requests
    (svc : nat -> value -> value -> reply) (t yv : value) (year_retries : Z)
    (w : world) :
  (forall n, svc n t yv = Unreachable) ->
  1 <= year_retries ->
  let evs :=
    [Get t yv; Error RequestFailed; Sleep 1;
     Get t yv; Error RequestFailed; Sleep 2;
     Get t yv; Error RequestFailed; Sleep 4;
     Get t yv; Error RequestFailed; Sleep 8;
     Get t yv; Error RequestFailed] in
  get_transcripts_run svc t yv 5 year_retries w =
    (Ok (Aborted, yv), {| fetches := 5 + fetches w; log := log w ++ evs |})
  /\ requested evs = [(t, yv); (t, yv); (t, yv); (t, yv); (t, yv)]
  /\ sleeps evs = [1; 2; 4; 8].
Proof.
  intros Hsvc Hyears evs. split; [|split; reflexivity].
  unfold get_transcripts_run.
  destruct (at_least_one_attempt year_retries Hyears) as [n Hn]. rewrite Hn.
  rewrite for_years_unfold. change (Z.to_nat 5) with 5%nat.
  rewrite (for_attempts_all_unreachable svc t 5 yv Hsvc ltac:(lia) 4 0 w
             eq_refl).
  reflexivity.
Qed.

(** C1 at work: AAPL, 2024, a service that is never reachable. *)
Lemma transport_failures_abort_after_five_requests_witness :
  (forall n, always_unreachable n (VStr "AAPL") (VInt 2024) = Unreachable)
  /\ 1 <= 3
  /\ get_transcripts_run always_unreachable (VStr "AAPL") (VInt 2024) 5 3 genesis =
       (Ok (Aborted, VInt 2024),
        {| fetches := 5;
           log := [Get (VStr "AAPL") (VInt 2024); Error RequestFailed; Sleep 1;
                   Get (VStr "AAPL") (VInt 2024); Error RequestFailed; Sleep 2;
                   Get (VStr "AAPL") (VInt 2024); Error RequestFailed; Sleep 4;
                   Get (VStr "AAPL") (VInt 2024); Error RequestFailed; Sleep 8;
                   Get (VStr "AAPL") (VInt 2024); Error RequestFailed] |}).
Proof.
  split; [reflexivity|]. split; [lia|].
  apply (transport_failures_abort_after_five_requests always_unreachable
           (VStr "AAPL") (VInt 2024) 3 genesis); [reflexivity | lia].
Defined.

(** C1 as the specification words it asks for a fifth sleep, of 16 seconds.
    The handler returns before it sleeps when the attempt was the last. *)
Lemma no_sleep_after_the_fifth_failure :
  sleeps (log (snd (get_transcripts_run always_unreachable
                      (VStr "AAPL") (VInt 2024) 5 3 genesis)))
  <> [1; 2; 4; 8; 16].
Proof.
  vm_compute. discriminate.
Qed.

(** C2, at an input where it fails.  A service that answers every request
    with HTTP 429 uses up the five attempts of 2024; the inner loop then
    runs out without returning, the year is decremented, and 2023 and 2022
    are asked five times each.  The function returns at line 118, not at
    line 114. *)
Theorem rate_limit_exhaustion_falls_back_a_year :
  let run := get_transcripts_run always_rate_limited
               (VStr "AAPL") (VInt 2024) 5 3 genesis in
  fst run = Ok (NotFound, VInt 2021)
  /\ requested (log (snd run)) =
       (repeat (VStr "AAPL", VInt 2024) 5
        ++ repeat (VStr "AAPL", VInt 2023) 5
        ++ repeat (VStr "AAPL", VInt 2022) 5)%list
  /\ errors (log (snd run)) = [MaxYearRetriesExceeded].
Proof.
  vm_compute. repeat split.
Qed.






(** C10.  When a 429 response carries a [Retry-After] value that [int]
    refuses, the [ValueError] is not a [RequestException], so the handler
    lets it through: the call ends with that exception right after the
    request, at whichever attempt it happens, and [get_transcripts] returns
    no terminal state. *)
Theorem unparseable_retry_after_escapes
    (svc : nat -> value -> value -> reply) (t yv : value)
    (max_retries year_retries : Z) (w : world) (r : response) (s : string) :
  1 <= max_retries ->
  1 <= year_retries ->
  svc (fetches w) t yv = Reply r ->
  status_code r = 429 ->
  retry_after_header r = Some s ->
  py_int s = Raise ValueError ->
  exn_eqb RequestException ValueError = false
  /\ (forall k a,
        for_attempts svc t yv max_retries (S k) a w =
        (Raise ValueError, after_request t yv [] w))
  /\ get_transcripts_run svc t yv max_retries year_retries w =
       (Raise ValueError, after_request t yv [] w)
  /\ (forall term, fst (get_transcripts_run svc t yv max_retries year_retries w)
                   <> Ok term).
Proof.
  intros Hmax Hyears Hsvc Hstatus Hheader Hint.
  assert (Hdelay : retry_after_seconds r = Raise ValueError)
    by (unfold retry_after_seconds; rewrite Hheader; exact Hint).
  assert (Hrun : get_transcripts_run svc t yv max_retries year_retries w =
                 (Raise ValueError, after_request t yv [] w)).
  { unfold get_transcripts_run.
    destruct (at_least_one_attempt year_retries Hyears) as [n Hn]. rewrite Hn.
    destruct (at_least_one_attempt max_retries Hmax) as [k Hk].
    rewrite for_years_unfold, Hk.
    rewrite (for_attempts_bad_delay svc t yv max_retries k 0 w r Hsvc Hstatus Hdelay).
    reflexivity. }
  split; [reflexivity|]. split; [|split].
  - intros k a. apply (for_attempts_bad_delay svc t yv max_retries k a w r); auto.
  - exact Hrun.
  - intros term. rewrite Hrun. discriminate.
Qed.

(** C10 at work: [Retry-After] given as an HTTP date. *)
Lemma unparseable_retry_after_escapes_witness :
  py_int http_date = Raise ValueError
  /\ get_transcripts_run limited_until_date (VStr "AAPL") (VInt 2024) 5 3 genesis =
       (Raise ValueError,
        {| fetches := 1; log := [Get (VStr "AAPL") (VInt 2024)] |}).
Proof.
  split; [reflexivity|].
  apply (unparseable_retry_after_escapes limited_until_date (VStr "AAPL")
           (VInt 2024) 5 3 genesis (rate_limited (Some http_date)) http_date);
    first [lia | reflexivity].
Defined.

(** ** What the fetcher can add to the log *)

(** Notices and sleeps are events of the fetcher. *)
Lemma quiet_fetcher_event (evs : list event) :
  Forall quiet evs -> Forall fetcher_event evs.
Proof.
  apply Forall_impl. intros [] H; first [exact H | contradiction].
Qed.

(** Notices and sleeps are no requests. *)
Lemma quiet_requested (evs : list event) :
  Forall quiet evs -> requested evs = [].
Proof.
  induction 1 as [|e evs He _ IH]; [reflexivity|].
  destruct e; try contradiction; exact IH.
Qed.

(** The requests of two logs in a row. *)
Lemma requested_app (l1 l2 : list event) :
  requested (l1 ++ l2) = (requested l1 ++ requested l2)%list.
Proof.
  apply flat_map_app.
Qed.

(** The fetcher shows no part of the report and starts no analysis. *)
Lemma fetcher_event_shown (evs : list event) :
  Forall fetcher_event evs -> shown evs = [] /\ analyses evs = [].
Proof.
  induction 1 as [|e evs He _ [IH1 IH2]]; [split; reflexivity|].
  destruct e; try contradiction; split; assumption.
Qed.

Section FetcherLog.

Variable svc : nat -> value -> value -> reply.
Variables (t : value) (max_retries : Z).

Ltac split_cases :=
  repeat (step_monad;
          match goal with
          | |- context [match ?x with _ => _ end] =>
              lazymatch x with
              | context [match _ with _ => _ end] => fail
              | _ => destruct x eqn:?
              end
          end).

(** One pass of the retry loop makes one request and adds notices and
    sleeps, whatever the service answers. *)
Lemma attempt_body_log (yv : value) (a : Z) (w : world) :
  exists evs,
    snd (attempt_body svc t yv max_retries a w) = after_request t yv evs w
    /\ Forall quiet evs.
Proof.
  open_monad. split_cases; step_monad; cbn [snd];
    eexists; (split; [same_world | repeat constructor]).
Qed.

(** The retry loop for one year only asks for that year, at most once per
    attempt. *)
Lemma for_attempts_log (yv : value) (k : nat) :
  forall (a : Z) (w : world),
  exists evs,
    snd (for_attempts svc t yv max_retries k a w) =
      {| fetches := List.length (requested evs) + fetches w; log := log w ++ evs |}
    /\ Forall fetcher_event evs
    /\ requested evs = repeat (t, yv) (List.length (requested evs))
    /\ (List.length (requested evs) <= k)%nat.
Proof.
  induction k as [|k IH]; intros a w.
  - exists []. cbn. rewrite app_nil_r. destruct w; repeat split; auto.
  - cbn [for_attempts]. unfold bind at 1.
    destruct (attempt_body_log yv a w) as [evs1 [Hw1 Hq]].
    destruct (attempt_body svc t yv max_retries a w) as [[f|e] w1];
      cbn [snd] in Hw1; subst w1.
    + destruct f.
      * destruct (IH (a + 1) (after_request t yv evs1 w))
          as [evs2 [Hw2 [Hf [Hr Hk]]]].
        exists (Get t yv :: evs1 ++ evs2)%list.
        assert (Hreq : requested (Get t yv :: evs1 ++ evs2)
                       = (t, yv) :: requested evs2).
        { change (requested (Get t yv :: evs1 ++ evs2))
            with ((t, yv) :: requested (evs1 ++ evs2)).
          rewrite requested_app, (quiet_requested evs1 Hq). reflexivity. }
        rewrite Hreq. cbn [List.length repeat]. repeat split.
        -- rewrite Hw2. unfold after_request. cbn [fetches log].
           rewrite <- app_assoc. cbn [app]. rewrite <- plus_n_Sm.
           reflexivity.
        -- constructor; [exact I|]. apply Forall_app. split;
             [apply quiet_fetcher_event; exact Hq | exact Hf].
        -- f_equal. exact Hr.
        -- lia.
      * exists (Get t yv :: evs1).
        assert (Hreq : requested (Get t yv :: evs1) = [(t, yv)])
          by (change (requested (Get t yv :: evs1))
                with ((t, yv) :: requested evs1);
              rewrite (quiet_requested evs1 Hq); reflexivity).
        rewrite Hreq. cbn [List.length repeat ret snd]. repeat split.
        -- constructor; [exact I | apply quiet_fetcher_event; exact Hq].
        -- lia.
      * exists (Get t yv :: evs1).
        assert (Hreq : requested (Get t yv :: evs1) = [(t, yv)])
          by (change (requested (Get t yv :: evs1))
                with ((t, yv) :: requested evs1);
              rewrite (quiet_requested evs1 Hq); reflexivity).
        rewrite Hreq. cbn [List.length repeat ret snd]. repeat split.
        -- constructor; [exact I | apply quiet_fetcher_event; exact Hq].
        -- lia.
    + exists (Get t yv :: evs1).
      assert (Hreq : requested (Get t yv :: evs1) = [(t, yv)])
        by (change (requested (Get t yv :: evs1))
              with ((t, yv) :: requested evs1);
            rewrite (quiet_requested evs1 Hq); reflexivity).
      rewrite Hreq. cbn [List.length repeat snd]. repeat split.
      -- constructor; [exact I | apply quiet_fetcher_event; exact Hq].
      -- lia.
Qed.

End FetcherLog.

Section YearLog.

Variable svc : nat -> value -> value -> reply.
Variables (t : value) (max_retries : Z).

(** No request at all fits any number of passes. *)
Lemma candidate_years_nil (n : nat) :
  forall yv, candidate_years t max_retries yv n [].
Proof.
  induction n as [|n IH]; intros yv; [reflexivity|].
  exists 0%nat, []. repeat split; [lia|].
  destruct (py_decrement yv); [apply IH | reflexivity].
Qed.

(** The year loop asks year by year, downwards. *)
Lemma for_years_log (n : nat) :
  forall (yv : value) (w : world),
  exists evs,
    snd (for_years svc t max_retries n yv w) =
      {| fetches := List.length (requested evs) + fetches w;
         log := log w ++ evs |}
    /\ Forall fetcher_event evs
    /\ candidate_years t max_retries yv n (requested evs).
Proof.
  induction n as [|n IH]; intros yv w.
  - exists [Error MaxYearRetriesExceeded]. repeat split.
    repeat constructor.
  - rewrite for_years_unfold.
    destruct (for_attempts_log svc t max_retries yv (Z.to_nat max_retries) 0 w)
      as [evs1 [Hw1 [Hf1 [Hr1 Hk1]]]].
    assert (Hstop : candidate_years t max_retries yv (S n) (requested evs1)).
    { exists (List.length (requested evs1)), [].
      rewrite app_nil_r. repeat split; [exact Hr1 | exact Hk1 |].
      destruct (py_decrement yv); [apply candidate_years_nil | reflexivity]. }
    destruct (for_attempts svc t yv max_retries (Z.to_nat max_retries) 0 w)
      as [[[term|]|e] w1]; cbn [snd] in Hw1; subst w1;
      try (exists evs1; repeat split; assumption).
    destruct (py_decrement yv) as [yv'|e] eqn:Hdec;
      [|exists evs1; repeat split; assumption].
    destruct (IH yv' {| fetches := List.length (requested evs1) + fetches w;
                        log := log w ++ evs1 |})
      as [evs2 [Hw2 [Hf2 Hc2]]].
    exists (evs1 ++ evs2)%list. rewrite requested_app. repeat split.
    + rewrite Hw2. cbn [fetches log]. rewrite <- app_assoc, length_app.
      f_equal. lia.
    + apply Forall_app. split; assumption.
    + exists (List.length (requested evs1)), (requested evs2).
      rewrite <- Hr1, Hdec. repeat split; assumption.
Qed.

End YearLog.

(** C5.  Whatever the service answers, three passes of the year loop ask
    only for the requested year, then only for the year before, then only
    for the year before that: at most three candidate years, the requested
    one included.  When all three answer with an empty list,
    [get_transcripts] returns at line 118 after exactly three requests. *)
Theorem three_candidate_years_then_not_found
    (svc : nat -> value -> value -> reply) (t : value) (y max_retries : Z) :
  (forall w : world,
      exists (a b c : nat) (evs : list event),
        snd (get_transcripts_run svc t (VInt y) max_retries 3 w) =
          {| fetches := a + b + c + fetches w; log := log w ++ evs |}
        /\ requested evs =
             (repeat (t, VInt y) a ++ repeat (t, VInt (y - 1)) b
              ++ repeat (t, VInt (y - 2)) c)%list)
  /\
  (forall w : world,
      1 <= max_retries ->
      (forall n, svc n t (VInt y) = Reply (ok_response (VList []))) ->
      (forall n, svc n t (VInt (y - 1)) = Reply (ok_response (VList []))) ->
      (forall n, svc n t (VInt (y - 2)) = Reply (ok_response (VList []))) ->
      get_transcripts_run svc t (VInt y) max_retries 3 w =
        (Ok (NotFound, VInt (y - 3)),
         {| fetches := 3 + fetches w;
            log := log w ++
                   [Get t (VInt y); Warning (NoTranscriptsFound (VInt y));
                    Get t (VInt (y - 1));
                    Warning (NoTranscriptsFound (VInt (y - 1)));
                    Get t (VInt (y - 2));
                    Warning (NoTranscriptsFound (VInt (y - 2)));
                    Error MaxYearRetriesExceeded] |})).
Proof.
  split.
  - intros w. unfold get_transcripts_run. change (Z.to_nat 3) with 3%nat.
    destruct (for_years_log svc t max_retries 3 (VInt y) w)
      as [evs [Hw [_ Hc]]].
    cbn [candidate_years py_decrement] in Hc.
    destruct Hc as [a [r1 [E1 [_ [b [r2 [E2 [_ [c [r3 [E3 [_ E4]]]]]]]]]]]].
    subst r3. rewrite app_nil_r in E3. subst r2 r1.
    replace (y - 1 - 1) with (y - 2) in E1 by lia.
    exists a, b, c, evs. split; [|exact E1].
    rewrite Hw, E1, !length_app, !repeat_length. f_equal. lia.
  - intros w Hmax H0 H1 H2.
    unfold get_transcripts_run. change (Z.to_nat 3) with 3%nat.
    rewrite for_years_nothing with (body := VList []); auto; try discriminate.
    rewrite for_years_nothing with (body := VList []); auto; try discriminate.
    replace (y - 1 - 1) with (y - 2) by lia.
    rewrite for_years_nothing with (body := VList []); auto; try discriminate.
    replace (y - 2 - 1) with (y - 3) by lia.
    cbn [for_years]. unfold bind, st_error, tell, ret, emit, after_request.
    cbn [fetches log]. rewrite <- !app_assoc. reflexivity.
Qed.

(** C5 at work: AAPL from 2024, a service without any transcript. *)
Lemma three_candidate_years_then_not_found_witness :
  1 <= 5
  /\ get_transcripts_run never_any_transcript (VStr "AAPL") (VInt 2024) 5 3 genesis =
       (Ok (NotFound, VInt 2021),
        {| fetches := 3;
           log := [Get (VStr "AAPL") (VInt 2024);
                   Warning (NoTranscriptsFound (VInt 2024));
                   Get (VStr "AAPL") (VInt 2023);
                   Warning (NoTranscriptsFound (VInt 2023));
                   Get (VStr "AAPL") (VInt 2022);
                   Warning (NoTranscriptsFound (VInt 2022));
                   Error MaxYearRetriesExceeded] |}).
Proof.
  split; [lia|].
  apply (proj2 (three_candidate_years_then_not_found never_any_transcript
                  (VStr "AAPL") 2024 5) genesis);
    first [lia | intros n; reflexivity].
Defined.

(** ** Ticker resolution *)

(** C6 as the specification words it: resolution never fails.  When the
    search request fails in transport the exception leaves
    [convert_company_to_ticker], which has no handler, and no ticker is
    produced. *)
Lemma resolution_fails_on_a_network_error :
  fst (resolve_ticker unreachable_search (VStr "Apple") genesis)
    = Raise RequestException
  /\ forall ticker,
       fst (resolve_ticker unreachable_search (VStr "Apple") genesis)
         <> Ok ticker.
Proof.
  split; [reflexivity|]. intros ticker. vm_compute. discriminate.
Qed.

(** C6 (as amended).  For every reference string, when the search service
    answers with an HTTP response, resolution returns the top match's
    symbol if the response is 200 with a match list whose first entry has
    a non-empty symbol, and the reference unchanged if the response is not
    200 or the list is empty.  A transport failure is not turned into the
    fallback: the request exception propagates. *)
Theorem resolution_falls_back_on_http_answers
    (search : value -> reply) (reference : string) (w : world) :
  let asked := emit (Search (VStr reference)) w in
  (forall r members rest symbol,
      search (VStr reference) = Reply r ->
      status_code r = 200 ->
      json r = VList (VDict members :: rest) ->
      dict_lookup "symbol" members = Some (VStr symbol) ->
      symbol <> "" ->
      resolve_ticker search (VStr reference) w = (Ok (VStr symbol), asked))
  /\
  (forall r,
      search (VStr reference) = Reply r ->
      status_code r = 200 ->
      json r = VList [] ->
      resolve_ticker search (VStr reference) w = (Ok (VStr reference), asked))
  /\
  (forall r,
      search (VStr reference) = Reply r ->
      status_code r <> 200 ->
      resolve_ticker search (VStr reference) w = (Ok (VStr reference), asked))
  /\
  (search (VStr reference) = Unreachable ->
   resolve_ticker search (VStr reference) w = (Raise RequestException, asked)).
Proof.
  intros asked. unfold resolve_ticker, convert_company_to_ticker, asked.
  repeat split.
  - intros r members rest symbol Hs Hstatus Hjson Hsym Hne.
    unfold bind, tell, ret, lift. rewrite Hs, Hstatus, Hjson.
    cbn [Z.eqb Pos.eqb truthy py_first py_getitem]. rewrite Hsym.
    unfold py_or. cbn [truthy]. apply String.eqb_neq in Hne. rewrite Hne.
    reflexivity.
  - intros r Hs Hstatus Hjson.
    unfold bind, tell, ret, lift. rewrite Hs, Hstatus, Hjson. reflexivity.
  - intros r Hs Hstatus.
    unfold bind, tell, ret, lift. rewrite Hs.
    apply Z.eqb_neq in Hstatus. rewrite Hstatus. reflexivity.
  - intros Hs. unfold bind, tell, raise. rewrite Hs. reflexivity.
Qed.

(** C6 at work: a match, no match, a server error, no connection. *)
Lemma resolution_falls_back_on_http_answers_witness :
  resolve_ticker apple_search (VStr "Apple") genesis =
    (Ok (VStr "AAPL"), {| fetches := 0; log := [Search (VStr "Apple")] |})
  /\ resolve_ticker apple_search (VStr "Nonesuch") genesis =
       (Ok (VStr "Nonesuch"),
        {| fetches := 0; log := [Search (VStr "Nonesuch")] |})
  /\ resolve_ticker apple_search (VStr "MSFT") genesis =
       (Ok (VStr "MSFT"), {| fetches := 0; log := [Search (VStr "MSFT")] |})
  /\ resolve_ticker unreachable_search (VStr "Apple") genesis =
       (Raise RequestException,
        {| fetches := 0; log := [Search (VStr "Apple")] |}).
Proof.
  split; [|split; [|split]].
  - apply (proj1 (resolution_falls_back_on_http_answers apple_search "Apple"
                    genesis)
             (ok_response (VList [VDict [("symbol", VStr "AAPL");
                                         ("name", VStr "Apple Inc.")]]))
             [("symbol", VStr "AAPL"); ("name", VStr "Apple Inc.")] []
             "AAPL");
      first [reflexivity | discriminate].
  - apply (proj1 (proj2 (resolution_falls_back_on_http_answers apple_search
                           "Nonesuch" genesis))
             (ok_response (VList [])));
      reflexivity.
  - apply (proj1 (proj2 (proj2 (resolution_falls_back_on_http_answers
                                  apple_search "MSFT" genesis)))
             {| status_code := 500; retry_after_header := None;
                json := VNone |});
      first [reflexivity | discriminate].
  - apply (proj2 (proj2 (proj2 (resolution_falls_back_on_http_answers
                                  unreachable_search "Apple" genesis))));
      reflexivity.
Defined.

(** ** Intent extraction *)

(** C7 as the specification words it: both fields non-null on success.
    Extraction succeeds on the arguments above and returns a null
    [ticker_or_company]. *)
Lemma extraction_succeeds_with_a_null_field :
  fst (extract_year_and_ticker prompt_example 2026
         "latest microsoft earnings call" genesis)
  = Ok (VInt 2024, VNone).
Proof.
  reflexivity.
Qed.

(** C7 (as amended).  Whenever intent extraction succeeds, the first tool
    call carried a JSON object, and each returned field is the value that
    object holds under its key, null when the object has no such key.  Both
    fields are non-null exactly when the object holds non-null values under
    both keys. *)
Theorem extracted_fields_are_the_arguments
    (chat : string -> completion) (this_year : Z) (user_input : string)
    (w w' : world) (year ticker_or_company : value) :
  extract_year_and_ticker chat this_year user_input w
    = (Ok (year, ticker_or_company), w') ->
  exists content members rest,
    chat user_input = Completion content (Some (Some (VDict members) :: rest))
    /\ year = argument "year" members
    /\ ticker_or_company = argument "ticker_or_company" members
    /\ ((year <> VNone /\ ticker_or_company <> VNone) <->
        (exists y c,
            dict_lookup "year" members = Some y /\ y <> VNone
            /\ dict_lookup "ticker_or_company" members = Some c
            /\ c <> VNone)).
Proof.
  unfold extract_year_and_ticker, bind at 1, tell. intros H.
  destruct (chat user_input) as [|content [[|[arguments|] rest]|]];
    try discriminate H.
  destruct arguments as [| | | | |members]; try discriminate H.
  exists content, members, rest. split; [reflexivity|].
  unfold bind, lift, ret, st_info, tell, py_get in H.
  assert (Hy : year = argument "year" members
               /\ ticker_or_company = argument "ticker_or_company" members).
  { unfold argument.
    destruct (dict_lookup "year" members);
      destruct (dict_lookup "ticker_or_company" members);
      match type of H with
      | context [if ?b then _ else _] => destruct b
      end; inversion H; split; reflexivity. }
  destruct Hy as [Hy Hc]. split; [exact Hy|]. split; [exact Hc|].
  subst year ticker_or_company. unfold argument. split.
  - intros [Hy Hc].
    destruct (dict_lookup "year" members) as [y|]; [|congruence].
    destruct (dict_lookup "ticker_or_company" members) as [c|]; [|congruence].
    exists y, c. repeat split; assumption.
  - intros [y [c [Ey [Hy [Ec Hc]]]]]. rewrite Ey, Ec. split; assumption.
Qed.

(** C7 at work: arguments with both keys. *)
Lemma extracted_fields_are_the_arguments_witness :
  exists content members rest,
    well_behaved_chat "latest microsoft earnings call"
      = Completion content (Some (Some (VDict members) :: rest))
    /\ VInt 2024 = argument "year" members
    /\ VStr "Microsoft" = argument "ticker_or_company" members
    /\ ((VInt 2024 <> VNone /\ VStr "Microsoft" <> VNone) <->
        (exists y c,
            dict_lookup "year" members = Some y /\ y <> VNone
            /\ dict_lookup "ticker_or_company" members = Some c
            /\ c <> VNone)).
Proof.
  apply (extracted_fields_are_the_arguments well_behaved_chat 2026
           "latest microsoft earnings call" genesis
           {| fetches := 0;
              log := [Extract "latest microsoft earnings call"] |}
           (VInt 2024) (VStr "Microsoft")).
  reflexivity.
Defined.

(** ** The price chart *)

(** C9 as the specification words it: the range ends exactly 30 days after
    the call date.  Eleven days after the call the range ends at the
    current time. *)
Lemma chart_range_ends_now_for_a_recent_call :
  parse_earnings_date (VStr "2024-07-30 17:00:00") = Ok 63857955600000000
  /\ fst (generate_price_chart soon_after (VStr "AAPL")
            (VStr "2024-07-30 17:00:00") (VInt 2024) genesis) =
       Ok {| fig_ticker := VStr "AAPL";
             fig_marker := 63857955600000000;
             fig_range := (63857955600000000 - timedelta_days 30,
                           soon_after) |}
  /\ soon_after <> 63857955600000000 + timedelta_days 30.
Proof.
  split; [reflexivity|]. split; [vm_compute; reflexivity|].
  vm_compute. discriminate.
Qed.

(** C9 (as amended).  For a transcript whose call date parses to [d] and
    lies at least 30 days inside the range of dates, the price series is
    asked for, and the chart drawn over, the range that starts exactly 30
    days before [d] and ends 30 days after [d] or at the current time,
    whichever is earlier; so it ends exactly 30 days after [d] once those
    30 days have passed. *)
Theorem chart_range_brackets_the_call
    (now : datetime) (ticker earnings_date year : value) (d : datetime)
    (w : world) :
  parse_earnings_date earnings_date = Ok d ->
  timedelta_days 30 <= d ->
  d + timedelta_days 30 <= datetime_max ->
  let start_date := d - timedelta_days 30 in
  let end_date := Z.min (d + timedelta_days 30) now in
  generate_price_chart now ticker earnings_date year w =
    (Ok {| fig_ticker := ticker; fig_marker := d;
           fig_range := (start_date, end_date) |},
     emit (Download ticker start_date end_date) w)
  /\ (d + timedelta_days 30 <= now -> end_date = d + timedelta_days 30).
Proof.
  intros Hparse Hlo Hhi start_date end_date.
  assert (Hday : 0 <= timedelta_days 30) by (vm_compute; discriminate).
  split; [|intros Hpast; apply Z.min_l; exact Hpast].
  unfold generate_price_chart, bind, lift, tell, ret. rewrite Hparse.
  unfold datetime_add.
  replace ((0 <=? d + - timedelta_days 30)
           && (d + - timedelta_days 30 <=? datetime_max)) with true
    by (symmetry; apply andb_true_iff; split; apply Z.leb_le; lia).
  replace ((0 <=? d + timedelta_days 30)
           && (d + timedelta_days 30 <=? datetime_max)) with true
    by (symmetry; apply andb_true_iff; split; apply Z.leb_le; lia).
  reflexivity.
Qed.

(** C9 at work: the call of 2024-07-30 17:00:00 seen on 2024-10-01. *)
Lemma chart_range_brackets_the_call_witness :
  parse_earnings_date (VStr "2024-07-30 17:00:00") = Ok 63857955600000000
  /\ generate_price_chart long_after (VStr "AAPL")
       (VStr "2024-07-30 17:00:00") (VInt 2024) genesis =
       (Ok {| fig_ticker := VStr "AAPL";
              fig_marker := 63857955600000000;
              fig_range := (63857955600000000 - timedelta_days 30,
                            Z.min (63857955600000000 + timedelta_days 30)
                                  long_after) |},
        emit (Download (VStr "AAPL")
                (63857955600000000 - timedelta_days 30)
                (Z.min (63857955600000000 + timedelta_days 30) long_after))
             genesis)
  /\ Z.min (63857955600000000 + timedelta_days 30) long_after
     = 63857955600000000 + timedelta_days 30.
Proof.
  split; [reflexivity|].
  assert (Hlo : timedelta_days 30 <= 63857955600000000)
    by (vm_compute; discriminate).
  assert (Hhi : 63857955600000000 + timedelta_days 30 <= datetime_max)
    by (vm_compute; discriminate).
  assert (Hpast : 63857955600000000 + timedelta_days 30 <= long_after)
    by (vm_compute; discriminate).
  destruct (chart_range_brackets_the_call long_after (VStr "AAPL")
              (VStr "2024-07-30 17:00:00") (VInt 2024) 63857955600000000
              genesis eq_refl Hlo Hhi) as [Hrun Hend].
  split; [exact Hrun | exact (Hend Hpast)].
Defined.

(** ** The pipeline boundary *)

(** The report elements of two logs in a row. *)
Lemma shown_app (l1 l2 : list event) :
  shown (l1 ++ l2) = (shown l1 ++ shown l2)%list.
Proof.
  apply flat_map_app.
Qed.

(** The analyses of two logs in a row. *)
Lemma analyses_app (l1 l2 : list event) :
  analyses (l1 ++ l2) = (analyses l1 ++ analyses l2)%list.
Proof.
  apply flat_map_app.
Qed.

(** Stages compose. *)
Lemma same_report_trans (w1 w2 w3 : world) :
  same_report w1 w2 -> same_report w2 w3 -> same_report w1 w3.
Proof.
  intros [S1 A1] [S2 A2]. split; congruence.
Qed.

(** Intent extraction shows nothing and analyses nothing. *)
Lemma extract_same_report (chat : string -> completion) (this_year : Z)
    (user_input : string) (w : world) :
  same_report w (snd (extract_year_and_ticker chat this_year user_input w)).
Proof.
  unfold extract_year_and_ticker, bind at 1, tell.
  assert (Hasked : same_report w (emit (Extract user_input) w))
    by (split; cbn [emit log]; [rewrite shown_app | rewrite analyses_app];
        cbn; apply app_nil_r).
  destruct (chat user_input) as [|content [[|[arguments|] rest]|]];
    try exact Hasked.
  unfold bind, lift, ret, st_info, tell.
  destruct (py_get arguments "year") as [year|]; [|exact Hasked].
  destruct (py_get arguments "ticker_or_company") as [c|]; [|exact Hasked].
  destruct (py_eq_int year this_year); [|exact Hasked].
  apply same_report_trans with (1 := Hasked).
  split; cbn [snd emit log]; [rewrite shown_app | rewrite analyses_app];
    cbn; apply app_nil_r.
Qed.

(** Ticker resolution shows nothing and analyses nothing. *)
Lemma resolve_same_report (search : value -> reply) (company : value)
    (w : world) :
  same_report w (snd (resolve_ticker search company w)).
Proof.
  unfold resolve_ticker, convert_company_to_ticker, bind, tell, raise, ret,
    lift.
  assert (Hasked : same_report w (emit (Search company) w))
    by (split; cbn [emit log]; [rewrite shown_app | rewrite analyses_app];
        cbn; apply app_nil_r).
  destruct (search company) as [|r]; [exact Hasked|].
  destruct (status_code r =? 200); [|exact Hasked].
  destruct (truthy (json r)); [|exact Hasked].
  destruct (py_first (json r)) as [top|]; [|exact Hasked].
  destruct (py_getitem top "symbol"); exact Hasked.
Qed.

(** The transcript fetch shows nothing and analyses nothing. *)
Lemma fetch_same_report (svc : nat -> value -> value -> reply)
    (t yv : value) (max_retries year_retries : Z) (w : world) :
  same_report w (snd (get_transcripts_run svc t yv max_retries year_retries w)).
Proof.
  unfold get_transcripts_run.
  destruct (for_years_log svc t max_retries (Z.to_nat year_retries) yv w)
    as [evs [Hw [Hf _]]].
  rewrite Hw. destruct (fetcher_event_shown evs Hf) as [Hs Ha].
  split; cbn [log]; [rewrite shown_app, Hs | rewrite analyses_app, Ha];
    apply app_nil_r.
Qed.

Section Boundary.

Variable chat_with_tools : string -> completion.
Variable chat_analysis : value -> completion.
Variable search_service : value -> reply.
Variable transcript_service : nat -> value -> value -> reply.
Variable this_year : Z.
Variable now : datetime.

(** C8 (as amended).  If the transcript fetch returns no transcript
    (line 114 or line 118), the pipeline stops there: [main] adds exactly
    one failure notice after the fetch returns, the analysis stage is
    never invoked, and nothing of a report is shown, only the title and
    the introduction of the page.  The notices the fetcher displayed
    during its retries stay in the log before that failure notice. *)
Theorem no_transcript_no_report
    (user_input : string) (w w2 w3 w4 : world)
    (year ticker_or_company ticker final_year : value) (term : terminal) :
  user_input <> "" ->
  extract_year_and_ticker chat_with_tools this_year user_input
    (emit (Show Intro) (emit (Show Title) w))
    = (Ok (year, ticker_or_company), w2) ->
  resolve_ticker search_service ticker_or_company w2 = (Ok ticker, w3) ->
  get_transcripts_run transcript_service ticker year 5 3 w3
    = (Ok (term, final_year), w4) ->
  term = Aborted \/ term = NotFound ->
  let w5 := emit (Error UnableToFetch) w4 in
  main chat_with_tools chat_analysis search_service transcript_service
       this_year now user_input w = (Ok tt, w5)
  /\ analyses (log w5) = analyses (log w)
  /\ shown (log w5) = (shown (log w) ++ [Title; Intro])%list.
Proof.
  intros Hinput Hextract Hresolve Hfetch Hterm w5.
  assert (Hvalue : return_value term = VNone)
    by (destruct Hterm; subst term; reflexivity).
  split.
  - unfold main, process_user_input, get_transcripts.
    unfold bind at 1. unfold tell at 1. unfold bind at 1. unfold tell at 1.
    apply String.eqb_neq in Hinput. rewrite Hinput. cbn [negb].
    unfold bind at 1. unfold bind at 1. rewrite Hextract. cbn [fst snd].
    unfold bind at 1. rewrite Hresolve.
    unfold bind at 1. unfold bind at 1. rewrite Hfetch.
    unfold ret at 1. cbn [fst snd]. rewrite Hvalue.
    reflexivity.
  - pose proof (extract_same_report chat_with_tools this_year user_input
                  (emit (Show Intro) (emit (Show Title) w))) as H2.
    rewrite Hextract in H2. cbn [snd] in H2.
    pose proof (resolve_same_report search_service ticker_or_company w2)
      as H3.
    rewrite Hresolve in H3. cbn [snd] in H3.
    pose proof (fetch_same_report transcript_service ticker year 5 3 w3)
      as H4.
    rewrite Hfetch in H4. cbn [snd] in H4.
    destruct (same_report_trans _ _ _ (same_report_trans _ _ _ H2 H3) H4)
      as [Hs Ha].
    unfold w5. cbn [emit log]. rewrite analyses_app, shown_app, Ha, Hs.
    cbn [emit log]. rewrite !analyses_app, !shown_app. cbn.
    rewrite !app_nil_r, <- app_assoc. split; reflexivity.
Qed.

End Boundary.

(** C8 at work: Apple resolves to AAPL, for which no year has a
    transcript. *)
Lemma no_transcript_no_report_witness :
  main apple_chat analyst apple_search never_any_transcript 2026 long_after
       apple_query genesis =
    (Ok tt,
     {| fetches := 3;
        log := [Show Title; Show Intro; Extract apple_query;
                Search (VStr "Apple");
                Get (VStr "AAPL") (VInt 2024);
                Warning (NoTranscriptsFound (VInt 2024));
                Get (VStr "AAPL") (VInt 2023);
                Warning (NoTranscriptsFound (VInt 2023));
                Get (VStr "AAPL") (VInt 2022);
                Warning (NoTranscriptsFound (VInt 2022));
                Error MaxYearRetriesExceeded;
                Error UnableToFetch] |}).
Proof.
  pose (w1 := emit (Show Intro) (emit (Show Title) genesis)).
  pose (w2 := snd (extract_year_and_ticker apple_chat 2026 apple_query w1)).
  pose (w3 := snd (resolve_ticker apple_search (VStr "Apple") w2)).
  pose (w4 := snd (get_transcripts_run never_any_transcript (VStr "AAPL")
                     (VInt 2024) 5 3 w3)).
  assert (H1 : apple_query <> "") by discriminate.
  assert (H2 : extract_year_and_ticker apple_chat 2026 apple_query w1
               = (Ok (VInt 2024, VStr "Apple"), w2)) by reflexivity.
  assert (H3 : resolve_ticker apple_search (VStr "Apple") w2
               = (Ok (VStr "AAPL"), w3)) by reflexivity.
  assert (H4 : get_transcripts_run never_any_transcript (VStr "AAPL")
                 (VInt 2024) 5 3 w3 = (Ok (NotFound, VInt 2021), w4))
    by reflexivity.
  assert (H5 : NotFound = Aborted \/ NotFound = NotFound)
    by (right; reflexivity).
  destruct (no_transcript_no_report apple_chat analyst apple_search
              never_any_transcript 2026 long_after apple_query
              genesis w2 w3 w4
              (VInt 2024) (VStr "Apple") (VStr "AAPL") (VInt 2021)
              NotFound H1 H2 H3 H4 H5) as [Hmain _].
  exact Hmain.
Defined.

(** C8 as the specification words it: a single failure notice.  When no
    year has a transcript the fetcher has already displayed its own error
    notice when [main] displays the final one. *)
Lemma two_failure_notices_when_nothing_is_found :
  let run := main apple_chat analyst apple_search never_any_transcript 2026
                  long_after apple_query genesis in
  fst run = Ok tt
  /\ errors (log (snd run)) = [MaxYearRetriesExceeded; UnableToFetch]
  /\ List.length (errors (log (snd run))) <> 1%nat.
Proof.
  vm_compute. repeat split. discriminate.
Qed.

(** * Further properties of the code *)

(** ** The fetcher: budgets *)

(** The requests of [n] passes number at most [n] times the attempts of a
    pass. *)
Lemma candidate_years_length (t : value) (max_retries : Z) (n : nat) :
  forall (yv : value) (reqs : list (value * value)),
    candidate_years t max_retries yv n reqs ->
    (List.length reqs <= n * Z.to_nat max_retries)%nat.
Proof.
  induction n as [|n IH]; intros yv reqs H; cbn [candidate_years] in H.
  - subst reqs. cbn. lia.
  - destruct H as [a [rest [E [Ha Hrest]]]]. subst reqs.
    rewrite length_app, repeat_length.
    assert (List.length rest <= n * Z.to_nat max_retries)%nat.
    { destruct (py_decrement yv) as [yv'|e]; [exact (IH yv' rest Hrest)|].
      subst rest. cbn. lia. }
    lia.
Qed.

(** X1.  Whatever the service answers and whatever the arguments are,
    [get_transcripts] makes at most [max_retries * year_retries] requests
    (none when either is zero or negative), and the events it adds to the
    log are requests, sleeps, warnings and errors only. *)
Theorem requests_never_exceed_the_budget
    (svc : nat -> value -> value -> reply) (t yv : value)
    (max_retries year_retries : Z) (w : world) :
  exists evs,
    snd (get_transcripts_run svc t yv max_retries year_retries w) =
      {| fetches := List.length (requested evs) + fetches w;
         log := log w ++ evs |}
    /\ Forall fetcher_event evs
    /\ (List.length (requested evs)
        <= Z.to_nat year_retries * Z.to_nat max_retries)%nat.
Proof.
  unfold get_transcripts_run.
  destruct (for_years_log svc t max_retries (Z.to_nat year_retries) yv w)
    as [evs [Hw [Hf Hc]]].
  exists evs. repeat split; [exact Hw | exact Hf |].
  exact (candidate_years_length t max_retries _ yv _ Hc).
Qed.

(** ** The fetcher: replies the claims do not cover *)

Section FetcherMore.

Variable svc : nat -> value -> value -> reply.
Variables (t y : value) (max_retries : Z).

(** A reply the handler sees, before the last attempt. *)
Lemma for_attempts_failing (k : nat) (a : Z) (w : world) :
  failing (svc (fetches w) t y) ->
  a + 1 <> max_retries ->
  a <= 33 ->
  for_attempts svc t y max_retries (S k) a w =
  for_attempts svc t y max_retries k (a + 1)
    (after_request t y [Error RequestFailed; Sleep (2 ^ a)] w).
Proof.
  intros [Hsvc | [resp [Hsvc [Hrange H429]]]] Hlast Ha.
  - apply for_attempts_unreachable; assumption.
  - cbn [for_attempts]. run_monad. rewrite Hsvc. step_monad.
    replace (status_code resp =? 200) with false
      by (symmetry; apply Z.eqb_neq; lia).
    replace (status_code resp =? 429) with false
      by (symmetry; apply Z.eqb_neq; lia).
    replace ((400 <=? status_code resp) && (status_code resp <? 600))
      with true
      by (symmetry; apply andb_true_iff; split;
          [apply Z.leb_le | apply Z.ltb_lt]; lia).
    step_monad. apply Z.eqb_neq in Hlast. rewrite Hlast.
    rewrite (pow2_not_too_long a Ha), pow2_not_negative. same_world.
Qed.

(** A reply the handler sees at attempt 34 or later, before the last
    attempt: the sleep of [2 ** attempt] seconds is too long for
    [time.sleep], and its [OverflowError] leaves the handler. *)
Lemma for_attempts_failing_too_long (k : nat) (a : Z) (w : world) :
  failing (svc (fetches w) t y) ->
  a + 1 <> max_retries ->
  34 <= a ->
  for_attempts svc t y max_retries (S k) a w =
  (Raise OverflowError, after_request t y [Error RequestFailed] w).
Proof.
  intros [Hsvc | [resp [Hsvc [Hrange H429]]]] Hlast Ha.
  - cbn [for_attempts]. run_monad. rewrite Hsvc. step_monad.
    apply Z.eqb_neq in Hlast. rewrite Hlast.
    rewrite (pow2_too_long a Ha). same_world.
  - cbn [for_attempts]. run_monad. rewrite Hsvc. step_monad.
    replace (status_code resp =? 200) with false
      by (symmetry; apply Z.eqb_neq; lia).
    replace (status_code resp =? 429) with false
      by (symmetry; apply Z.eqb_neq; lia).
    replace ((400 <=? status_code resp) && (status_code resp <? 600))
      with true
      by (symmetry; apply andb_true_iff; split;
          [apply Z.leb_le | apply Z.ltb_lt]; lia).
    step_monad. apply Z.eqb_neq in Hlast. rewrite Hlast.
    rewrite (pow2_too_long a Ha). same_world.
Qed.

(** A reply the handler sees, at the last attempt. *)
Lemma for_attempts_failing_last (k : nat) (a : Z) (w : world) :
  failing (svc (fetches w) t y) ->
  a + 1 = max_retries ->
  for_attempts svc t y max_retries (S k) a w =
  (Ok (Some Aborted), after_request t y [Error RequestFailed] w).
Proof.
  intros [Hsvc | [resp [Hsvc [Hrange H429]]]] Hlast.
  - apply for_attempts_unreachable_last; assumption.
  - cbn [for_attempts]. run_monad. rewrite Hsvc. step_monad.
    replace (status_code resp =? 200) with false
      by (symmetry; apply Z.eqb_neq; lia).
    replace (status_code resp =? 429) with false
      by (symmetry; apply Z.eqb_neq; lia).
    replace ((400 <=? status_code resp) && (status_code resp <? 600))
      with true
      by (symmetry; apply andb_true_iff; split;
          [apply Z.leb_le | apply Z.ltb_lt]; lia).
    step_monad. apply Z.eqb_eq in Hlast. rewrite Hlast. same_world.
Qed.

(** Every reply is one the handler sees, and there are at most 35
    attempts. *)
Lemma for_attempts_all_failing :
  (forall n, failing (svc n t y)) ->
  max_retries <= 35 ->
  forall (k : nat) (a : Z) (w : world),
    a + Z.of_nat k + 1 = max_retries ->
    for_attempts svc t y max_retries (S k) a w =
    (Ok (Some Aborted),
     {| fetches := S k + fetches w; log := log w ++ backoff_log t y a k |}).
Proof.
  intros Hsvc Hfew. induction k as [|k IH]; intros a w Hlast.
  - rewrite for_attempts_failing_last by (auto; lia). reflexivity.
  - rewrite for_attempts_failing by (auto; lia).
    rewrite IH by lia. unfold after_request. cbn [fetches log backoff_log].
    rewrite <- app_assoc. cbn [app].
    rewrite <- plus_n_Sm. reflexivity.
Qed.

(** Every reply is one the handler sees, and there are 36 attempts or
    more: [k] attempts that back off, up to attempt 33, then attempt 34,
    whose sleep is too long. *)
Lemma for_attempts_all_failing_too_long :
  (forall n, failing (svc n t y)) ->
  36 <= max_retries ->
  forall (k more : nat) (a : Z) (w : world),
    a + Z.of_nat k = 34 ->
    for_attempts svc t y max_retries (S (k + more)) a w =
    (Raise OverflowError,
     {| fetches := S k + fetches w; log := log w ++ backoff_log t y a k |}).
Proof.
  intros Hsvc Hmany. induction k as [|k IH]; intros more a w Hlast.
  - rewrite for_attempts_failing_too_long by (auto; lia). reflexivity.
  - cbn [Nat.add]. rewrite for_attempts_failing by (auto; lia).
    rewrite IH by lia. unfold after_request. cbn [fetches log backoff_log].
    rewrite <- app_assoc. cbn [app].
    rewrite <- plus_n_Sm. reflexivity.
Qed.

(** A status nothing reacts to: the attempt is spent, nothing else. *)
Lemma for_attempts_unremarkable (k : nat) (a : Z) (w : world) (r : response) :
  svc (fetches w) t y = Reply r ->
  unremarkable (status_code r) ->
  for_attempts svc t y max_retries (S k) a w =
  for_attempts svc t y max_retries k (a + 1) (after_request t y [] w).
Proof.
  intros Hsvc [H200 [H429 Hrange]].
  cbn [for_attempts]. run_monad. rewrite Hsvc. step_monad.
  replace (status_code r =? 200) with false
    by (symmetry; apply Z.eqb_neq; lia).
  replace (status_code r =? 429) with false
    by (symmetry; apply Z.eqb_neq; lia).
  replace ((400 <=? status_code r) && (status_code r <? 600)) with false
    by (symmetry; apply andb_false_iff; destruct Hrange;
        [left; apply Z.leb_gt | right; apply Z.ltb_ge]; lia).
  same_world.
Qed.

Lemma for_attempts_all_unremarkable :
  (forall n, exists r, svc n t y = Reply r /\ unremarkable (status_code r)) ->
  forall (k : nat) (a : Z) (w : world),
    for_attempts svc t y max_retries k a w =
    (Ok None,
     {| fetches := k + fetches w; log := log w ++ repeat (Get t y) k |}).
Proof.
  intros Hsvc. induction k as [|k IH]; intros a w.
  - cbn. rewrite app_nil_r. destruct w; reflexivity.
  - destruct (Hsvc (fetches w)) as [r [Hr Hu]].
    rewrite (for_attempts_unremarkable k a w r Hr Hu), IH.
    unfold after_request. cbn [fetches log repeat].
    rewrite <- app_assoc. cbn [app]. rewrite <- plus_n_Sm. reflexivity.
Qed.


(** HTTP 200, whatever the headers, with a body that is no non-empty
    list. *)
Lemma for_attempts_no_transcripts (k : nat) (a : Z) (w : world) (r : response) :
  svc (fetches w) t y = Reply r ->
  status_code r = 200 ->
  no_transcripts (json r) ->
  for_attempts svc t y max_retries (S k) a w =
  (Ok None, after_request t y [Warning (NoTranscriptsFound y)] w).
Proof.
  intros Hsvc Hstatus Hbody. cbn [for_attempts]. run_monad. rewrite Hsvc.
  step_monad. rewrite Hstatus. step_monad.
  destruct (json r) as [| | | |items|]; try same_world.
  destruct items as [|first rest]; [same_world|].
  exfalso. exact (Hbody first rest eq_refl).
Qed.

(** HTTP 429 with a negative delay: [time.sleep] refuses it after the
    warning was shown. *)
Lemma for_attempts_negative_delay (k : nat) (a : Z) (w : world)
    (r : response) (n : Z) :
  svc (fetches w) t y = Reply r ->
  status_code r = 429 ->
  retry_after_seconds r = Ok n ->
  - max_sleep <= n < 0 ->
  for_attempts svc t y max_retries (S k) a w =
  (Raise ValueError,
   after_request t y [Warning (RateLimitExceeded n (a + 1) max_retries)] w).
Proof.
  intros Hsvc Hstatus Hdelay [Hlo Hn]. cbn [for_attempts]. run_monad.
  rewrite Hsvc. step_monad. rewrite Hstatus, Hdelay. step_monad.
  replace ((n <? - max_sleep) || (max_sleep <? n)) with false
    by (symmetry; apply orb_false_iff; unfold max_sleep in *;
        split; apply Z.ltb_ge; lia).
  apply Z.ltb_lt in Hn. rewrite Hn. same_world.
Qed.

(** HTTP 429 with a delay too long for [time.sleep], on either side: its
    [OverflowError] escapes after the warning was shown. *)
Lemma for_attempts_delay_too_long (k : nat) (a : Z) (w : world)
    (r : response) (n : Z) :
  svc (fetches w) t y = Reply r ->
  status_code r = 429 ->
  retry_after_seconds r = Ok n ->
  n < - max_sleep \/ max_sleep < n ->
  for_attempts svc t y max_retries (S k) a w =
  (Raise OverflowError,
   after_request t y [Warning (RateLimitExceeded n (a + 1) max_retries)] w).
Proof.
  intros Hsvc Hstatus Hdelay Hn. cbn [for_attempts]. run_monad.
  rewrite Hsvc. step_monad. rewrite Hstatus, Hdelay. step_monad.
  replace ((n <? - max_sleep) || (max_sleep <? n)) with true
    by (symmetry; apply orb_true_iff;
        destruct Hn; [left | right]; apply Z.ltb_lt; assumption).
  same_world.
Qed.

End FetcherMore.

(** When no pass of the retry loop returns, the year loop counts the year
    down once per pass and ends at line 118. *)
Lemma for_years_all_pass (svc : nat -> value -> value -> reply) (t : value)
    (max_retries : Z) (per_year : Z -> list event) (c : nat) :
  (forall (y' : Z) (w' : world),
      for_attempts svc t (VInt y') max_retries (Z.to_nat max_retries) 0 w' =
      (Ok None,
       {| fetches := c + fetches w'; log := log w' ++ per_year y' |})) ->
  forall (n : nat) (y : Z) (w : world),
    for_years svc t max_retries n (VInt y) w =
    (Ok (NotFound, VInt (y - Z.of_nat n)),
     {| fetches := n * c + fetches w;
        log := log w ++ years_log per_year y n |}).
Proof.
  intros Hpass. induction n as [|n IH]; intros y w.
  - cbn [for_years years_log]. unfold bind, st_error, tell, ret, emit.
    replace (y - Z.of_nat 0) with y by lia. reflexivity.
  - rewrite for_years_unfold, Hpass. cbn [py_decrement]. rewrite IH.
    cbn [fetches log years_log]. rewrite <- app_assoc.
    replace (y - 1 - Z.of_nat n) with (y - Z.of_nat (S n)) by lia.
    replace (n * c + (c + fetches w))%nat with (S n * c + fetches w)%nat
      by (cbn [Nat.mul]; lia).
    reflexivity.
Qed.

(** X2.  A 4xx or 5xx status other than 429 is handled exactly like a
    failed connection.  When every request meets one or the other and
    there are at most 35 attempts, the fetch backs off [2 ** attempt]
    seconds between attempts and returns at line 114 after [max_retries]
    requests, all for the requested year.  From 36 attempts on it does not
    get that far: after the 35th failed request the sleep of [2 ** 34]
    seconds is too long for [time.sleep], and the fetch ends with its
    [OverflowError]. *)
Theorem http_errors_count_as_transport_failures
    (svc : nat -> value -> value -> reply) (t yv : value)
    (max_retries year_retries : Z) (w : world) :
  (forall n, failing (svc n t yv)) ->
  1 <= max_retries ->
  1 <= year_retries ->
  (max_retries <= 35 ->
   get_transcripts_run svc t yv max_retries year_retries w =
     (Ok (Aborted, yv),
      {| fetches := Z.to_nat max_retries + fetches w;
         log := log w ++ backoff_log t yv 0 (Z.to_nat max_retries - 1) |}))
  /\
  (36 <= max_retries ->
   get_transcripts_run svc t yv max_retries year_retries w =
     (Raise OverflowError,
      {| fetches := 35 + fetches w;
         log := log w ++ backoff_log t yv 0 34 |})).
Proof.
  intros Hsvc Hmax Hyears. unfold get_transcripts_run.
  destruct (at_least_one_attempt year_retries Hyears) as [n Hn]. rewrite Hn.
  rewrite for_years_unfold. split.
  - intros Hfew.
    destruct (at_least_one_attempt max_retries Hmax) as [k Hk]. rewrite Hk.
    rewrite (for_attempts_all_failing svc t yv max_retries Hsvc Hfew k 0 w)
      by lia.
    replace (S k - 1)%nat with k by lia. reflexivity.
  - intros Hmany.
    replace (Z.to_nat max_retries)
      with (S (34 + (Z.to_nat max_retries - 35)))%nat by lia.
    rewrite (for_attempts_all_failing_too_long svc t yv max_retries Hsvc
               Hmany 34 _ 0 w) by lia.
    reflexivity.
Qed.

(** X2 at work: HTTP 503 on every request, with three attempts and with
    thirty-six. *)
Lemma http_errors_count_as_transport_failures_witness :
  get_transcripts_run always_server_error (VStr "AAPL") (VInt 2024) 3 3 genesis =
    (Ok (Aborted, VInt 2024),
     {| fetches := 3;
        log := [Get (VStr "AAPL") (VInt 2024); Error RequestFailed; Sleep 1;
                Get (VStr "AAPL") (VInt 2024); Error RequestFailed; Sleep 2;
                Get (VStr "AAPL") (VInt 2024); Error RequestFailed] |})
  /\ get_transcripts_run always_server_error (VStr "AAPL") (VInt 2024) 36 3
       genesis =
       (Raise OverflowError,
        {| fetches := 35;
           log := backoff_log (VStr "AAPL") (VInt 2024) 0 34 |}).
Proof.
  assert (Hsvc : forall n,
             failing (always_server_error n (VStr "AAPL") (VInt 2024))).
  { intros n. right. exists (with_status 503).
    split; [reflexivity|]. cbn. lia. }
  split.
  - apply (proj1 (http_errors_count_as_transport_failures always_server_error
                    (VStr "AAPL") (VInt 2024) 3 3 genesis Hsvc ltac:(lia)
                    ltac:(lia))).
    lia.
  - apply (proj2 (http_errors_count_as_transport_failures always_server_error
                    (VStr "AAPL") (VInt 2024) 36 3 genesis Hsvc ltac:(lia)
                    ltac:(lia))).
    lia.
Defined.

(** X3.  A status that is neither 200 nor 429 nor a 4xx or 5xx (a 204 or
    a 302, say) spends the attempt and nothing else: no notice, no sleep.
    When every answer is of that kind the fetch fires [max_retries]
    requests per year back to back, year after year, and returns at line
    118. *)
Theorem unremarkable_statuses_are_retried_without_pause
    (svc : nat -> value -> value -> reply) (t : value) (y : Z)
    (max_retries year_retries : Z) (w : world) :
  (forall n y', exists r, svc n t (VInt y') = Reply r
                          /\ unremarkable (status_code r)) ->
  let per_year := fun y' => repeat (Get t (VInt y')) (Z.to_nat max_retries) in
  let evs := years_log per_year y (Z.to_nat year_retries) in
  get_transcripts_run svc t (VInt y) max_retries year_retries w =
    (Ok (NotFound, VInt (y - Z.of_nat (Z.to_nat year_retries))),
     {| fetches := Z.to_nat year_retries * Z.to_nat max_retries + fetches w;
        log := log w ++ evs |}).
Proof.
  intros Hsvc per_year evs. unfold get_transcripts_run.
  apply for_years_all_pass. intros y' w'.
  apply for_attempts_all_unremarkable. intros n. exact (Hsvc n y').
Qed.

(** X3 at work: HTTP 204 on every request, two attempts for each of two
    years. *)
Lemma unremarkable_statuses_are_retried_without_pause_witness :
  get_transcripts_run always_no_content (VStr "AAPL") (VInt 2024) 2 2 genesis =
    (Ok (NotFound, VInt 2022),
     {| fetches := 4;
        log := [Get (VStr "AAPL") (VInt 2024); Get (VStr "AAPL") (VInt 2024);
                Get (VStr "AAPL") (VInt 2023); Get (VStr "AAPL") (VInt 2023);
                Error MaxYearRetriesExceeded] |}).
Proof.
  apply (unremarkable_statuses_are_retried_without_pause always_no_content
           (VStr "AAPL") 2024 2 2 genesis).
  intros n y'. exists (with_status 204). split; [reflexivity|].
  unfold unremarkable. cbn. lia.
Defined.



(** X5.  A 200 response whose body is no non-empty list (an empty list, a
    JSON object such as an error message, null) counts as "no transcripts
    for this year".  When every answer is of that kind the fetch makes
    exactly one request for each of [year_retries] successive years and
    returns at line 118. *)
Theorem one_request_per_year_when_nothing_is_found
    (svc : nat -> value -> value -> reply) (t : value) (y : Z)
    (max_retries year_retries : Z) (w : world) :
  (forall n y', exists r, svc n t (VInt y') = Reply r
                          /\ status_code r = 200
                          /\ no_transcripts (json r)) ->
  1 <= max_retries ->
  let per_year :=
    fun y' => [Get t (VInt y'); Warning (NoTranscriptsFound (VInt y'))] in
  let evs := years_log per_year y (Z.to_nat year_retries) in
  get_transcripts_run svc t (VInt y) max_retries year_retries w =
    (Ok (NotFound, VInt (y - Z.of_nat (Z.to_nat year_retries))),
     {| fetches := Z.to_nat year_retries + fetches w;
        log := log w ++ evs |}).
Proof.
  intros Hsvc Hmax per_year evs. unfold get_transcripts_run.
  replace (Z.to_nat year_retries + fetches w)%nat
    with (Z.to_nat year_retries * 1 + fetches w)%nat by lia.
  apply for_years_all_pass. intros y' w'.
  destruct (at_least_one_attempt max_retries Hmax) as [k Hk]. rewrite Hk.
  destruct (Hsvc (fetches w') y') as [r [Hr [Hs Hb]]].
  rewrite (for_attempts_no_transcripts svc t (VInt y') max_retries k 0 w' r
             Hr Hs Hb).
  reflexivity.
Qed.

(** X5 at work: an error message in a 200 response, four years. *)
Lemma one_request_per_year_when_nothing_is_found_witness :
  get_transcripts_run always_error_message (VStr "AAPL") (VInt 2024) 5 4
    genesis =
    (Ok (NotFound, VInt 2020),
     {| fetches := 4;
        log := [Get (VStr "AAPL") (VInt 2024);
                Warning (NoTranscriptsFound (VInt 2024));
                Get (VStr "AAPL") (VInt 2023);
                Warning (NoTranscriptsFound (VInt 2023));
                Get (VStr "AAPL") (VInt 2022);
                Warning (NoTranscriptsFound (VInt 2022));
                Get (VStr "AAPL") (VInt 2021);
                Warning (NoTranscriptsFound (VInt 2021));
                Error MaxYearRetriesExceeded] |}).
Proof.
  apply (one_request_per_year_when_nothing_is_found always_error_message
           (VStr "AAPL") 2024 5 4 genesis); [|lia].
  intros n y'. exists (ok_response error_message).
  repeat split. intros first rest. discriminate.
Defined.

(** X6.  A [Retry-After] that [int] reads as a number [time.sleep] does
    not take is shown in the warning and then ends the fetch after one
    request, with an exception the handler does not catch: [ValueError]
    for a negative number down to -9223372036, [OverflowError] for a number
    beyond 9223372036 on either side. *)
Theorem retry_after_that_sleep_refuses_escapes
    (svc : nat -> value -> value -> reply) (t yv : value)
    (max_retries year_retries : Z) (w : world) (r : response) (n : Z) :
  1 <= max_retries ->
  1 <= year_retries ->
  svc (fetches w) t yv = Reply r ->
  status_code r = 429 ->
  retry_after_seconds r = Ok n ->
  let warned :=
    after_request t yv [Warning (RateLimitExceeded n 1 max_retries)] w in
  (- max_sleep <= n < 0 ->
   get_transcripts_run svc t yv max_retries year_retries w
     = (Raise ValueError, warned))
  /\
  (n < - max_sleep \/ max_sleep < n ->
   get_transcripts_run svc t yv max_retries year_retries w
     = (Raise OverflowError, warned)).
Proof.
  intros Hmax Hyears Hsvc Hstatus Hdelay warned. unfold get_transcripts_run.
  destruct (at_least_one_attempt year_retries Hyears) as [m Hm]. rewrite Hm.
  destruct (at_least_one_attempt max_retries Hmax) as [k Hk].
  rewrite for_years_unfold, Hk. split; intros Hn.
  - rewrite (for_attempts_negative_delay svc t yv max_retries k 0 w r n
               Hsvc Hstatus Hdelay Hn).
    reflexivity.
  - rewrite (for_attempts_delay_too_long svc t yv max_retries k 0 w r n
               Hsvc Hstatus Hdelay Hn).
    reflexivity.
Qed.

(** X6 at work: [Retry-After: -1] and [Retry-After: 10000000000]. *)
Lemma retry_after_that_sleep_refuses_escapes_witness :
  get_transcripts_run (always_limited_for "-1") (VStr "AAPL") (VInt 2024) 5 3
    genesis =
    (Raise ValueError,
     {| fetches := 1;
        log := [Get (VStr "AAPL") (VInt 2024);
                Warning (RateLimitExceeded (-1) 1 5)] |})
  /\ get_transcripts_run (always_limited_for "10000000000") (VStr "AAPL")
       (VInt 2024) 5 3 genesis =
       (Raise OverflowError,
        {| fetches := 1;
           log := [Get (VStr "AAPL") (VInt 2024);
                   Warning (RateLimitExceeded 10000000000 1 5)] |}).
Proof.
  split.
  - apply (proj1 (retry_after_that_sleep_refuses_escapes
                    (always_limited_for "-1") (VStr "AAPL") (VInt 2024) 5 3
                    genesis (rate_limited (Some "-1")) (-1)
                    ltac:(lia) ltac:(lia) eq_refl eq_refl eq_refl)).
    unfold max_sleep. lia.
  - apply (proj2 (retry_after_that_sleep_refuses_escapes
                    (always_limited_for "10000000000") (VStr "AAPL")
                    (VInt 2024) 5 3 genesis
                    (rate_limited (Some "10000000000")) 10000000000
                    ltac:(lia) ltac:(lia) eq_refl eq_refl eq_refl)).
    right. unfold max_sleep. lia.
Defined.

(** X7.  The year is only computed with when a year turns out empty: with
    a year that is no number (null, or a string), the first year is asked
    for as it is, and the fallback [transcript_year -= 1] raises
    [TypeError] right after the "no transcripts" warning. *)
Theorem year_that_is_no_number_breaks_the_fallback
    (svc : nat -> value -> value -> reply) (t yv : value)
    (max_retries year_retries : Z) (w : world) (r : response) :
  1 <= max_retries ->
  1 <= year_retries ->
  py_decrement yv = Raise TypeError ->
  svc (fetches w) t yv = Reply r ->
  status_code r = 200 ->
  no_transcripts (json r) ->
  get_transcripts_run svc t yv max_retries year_retries w =
    (Raise TypeError,
     after_request t yv [Warning (NoTranscriptsFound yv)] w).
Proof.
  intros Hmax Hyears Hdec Hsvc Hstatus Hbody. unfold get_transcripts_run.
  destruct (at_least_one_attempt year_retries Hyears) as [m Hm]. rewrite Hm.
  destruct (at_least_one_attempt max_retries Hmax) as [k Hk].
  rewrite for_years_unfold, Hk.
  rewrite (for_attempts_no_transcripts svc t yv max_retries k 0 w r
             Hsvc Hstatus Hbody).
  rewrite Hdec. reflexivity.
Qed.

(** X7 at work: the year given as the string ["2024"]. *)
Lemma year_that_is_no_number_breaks_the_fallback_witness :
  get_transcripts_run never_any_transcript (VStr "AAPL") (VStr "2024") 5 3
    genesis =
    (Raise TypeError,
     {| fetches := 1;
        log := [Get (VStr "AAPL") (VStr "2024");
                Warning (NoTranscriptsFound (VStr "2024"))] |}).
Proof.
  apply (year_that_is_no_number_breaks_the_fallback never_any_transcript
           (VStr "AAPL") (VStr "2024") 5 3 genesis (ok_response (VList [])));
    first [lia | reflexivity | intros first rest; discriminate].
Defined.

(** Passes that add nothing leave the final notice only. *)
Lemma years_log_nothing (y : Z) (n : nat) :
  years_log (fun _ => []) y n = [Error MaxYearRetriesExceeded].
Proof.
  revert y. induction n as [|n IH]; intros y; [reflexivity|].
  cbn [years_log app]. apply IH.
Qed.

(** X8.  With no year to try ([year_retries <= 0]) or no attempt per year
    ([max_retries <= 0]) the fetch makes no request at all: it shows the
    "max retries" error and returns at line 118; in the second case the
    year has been counted down all the same. *)
Theorem empty_budgets_make_no_request
    (svc : nat -> value -> value -> reply) (t : value)
    (max_retries year_retries : Z) (w : world) :
  (forall yv,
      year_retries <= 0 ->
      get_transcripts_run svc t yv max_retries year_retries w =
      (Ok (NotFound, yv), emit (Error MaxYearRetriesExceeded) w))
  /\
  (forall y,
      max_retries <= 0 ->
      get_transcripts_run svc t (VInt y) max_retries year_retries w =
      (Ok (NotFound, VInt (y - Z.of_nat (Z.to_nat year_retries))),
       emit (Error MaxYearRetriesExceeded) w)).
Proof.
  split.
  - intros yv Hyears. unfold get_transcripts_run.
    replace (Z.to_nat year_retries) with 0%nat by lia. reflexivity.
  - intros y Hmax. unfold get_transcripts_run.
    rewrite (for_years_all_pass svc t max_retries (fun _ => []) 0).
    + rewrite years_log_nothing, Nat.mul_0_r. reflexivity.
    + intros y' w'. replace (Z.to_nat max_retries) with 0%nat by lia.
      cbn. rewrite app_nil_r. destruct w'; reflexivity.
Qed.

(** X8 at work: no year to try; three years and no attempt. *)
Lemma empty_budgets_make_no_request_witness :
  get_transcripts_run only_2022 (VStr "AAPL") (VInt 2022) 5 0 genesis =
    (Ok (NotFound, VInt 2022),
     {| fetches := 0; log := [Error MaxYearRetriesExceeded] |})
  /\ get_transcripts_run only_2022 (VStr "AAPL") (VInt 2022) 0 3 genesis =
       (Ok (NotFound, VInt 2019),
        {| fetches := 0; log := [Error MaxYearRetriesExceeded] |}).
Proof.
  split.
  - apply (proj1 (empty_budgets_make_no_request only_2022 (VStr "AAPL") 5 0
                    genesis) (VInt 2022)). lia.
  - apply (proj2 (empty_budgets_make_no_request only_2022 (VStr "AAPL") 0 3
                    genesis) 2022). lia.
Defined.

(** ** Ticker resolution: every answer *)

(** X9.  Resolution sends exactly one search request, whatever comes back,
    and when it returns, it returns either the reference it was given or
    the (truthy) symbol of the first entry of a 200 answer: nothing else
    can become the ticker. *)
Theorem resolution_asks_once_and_returns_reference_or_symbol
    (search : value -> reply) (company : value) (w : world) :
  snd (resolve_ticker search company w) = emit (Search company) w
  /\ forall v,
       fst (resolve_ticker search company w) = Ok v ->
       v = company
       \/ (truthy v = true
           /\ exists r top,
                search company = Reply r
                /\ status_code r = 200
                /\ py_first (json r) = Ok top
                /\ py_getitem top "symbol" = Ok v).
Proof.
  unfold resolve_ticker, convert_company_to_ticker, bind, tell, raise, ret,
    lift.
  destruct (search company) as [|r]; [split; [reflexivity | discriminate]|].
  destruct (status_code r =? 200) eqn:Hs;
    [|split; [reflexivity | intros v H; cbn in H; inversion H; left; reflexivity]].
  apply Z.eqb_eq in Hs.
  destruct (truthy (json r));
    [|split; [reflexivity | intros v H; cbn in H; inversion H; left; reflexivity]].
  destruct (py_first (json r)) as [top|e] eqn:Hfirst;
    [|split; [reflexivity | discriminate]].
  destruct (py_getitem top "symbol") as [sym|e] eqn:Hsym;
    [|split; [reflexivity | discriminate]].
  split; [reflexivity|]. cbn [fst]. intros v H. inversion H. subst v.
  unfold py_or. destruct (truthy sym) eqn:Ht; [|left; reflexivity].
  right. split; [exact Ht|]. exists r, top. repeat split; auto.
Qed.

(** X10.  A 200 answer of an unexpected shape is not covered by the
    fallback.  A non-empty JSON object (an error message, say) raises
    [KeyError] at [data[0]], and so does a first entry without a
    ["symbol"]; a first entry whose symbol is falsy (empty or null) gives
    the reference back. *)
Theorem resolution_on_unexpected_bodies
    (search : value -> reply) (company : value) (w : world) (r : response) :
  search company = Reply r ->
  status_code r = 200 ->
  let asked := emit (Search company) w in
  (forall m ms,
      json r = VDict (m :: ms) ->
      resolve_ticker search company w = (Raise KeyError, asked))
  /\
  (forall members rest,
      json r = VList (VDict members :: rest) ->
      dict_lookup "symbol" members = None ->
      resolve_ticker search company w = (Raise KeyError, asked))
  /\
  (forall members rest symbol,
      json r = VList (VDict members :: rest) ->
      dict_lookup "symbol" members = Some symbol ->
      truthy symbol = false ->
      resolve_ticker search company w = (Ok company, asked)).
Proof.
  intros Hs Hstatus asked.
  unfold resolve_ticker, convert_company_to_ticker, bind, tell, raise, ret,
    lift, asked.
  rewrite Hs, Hstatus. cbn [Z.eqb Pos.eqb]. repeat split.
  - intros m ms Hj. rewrite Hj. reflexivity.
  - intros members rest Hj Hsym. rewrite Hj.
    cbn [truthy py_first py_getitem]. rewrite Hsym. reflexivity.
  - intros members rest symbol Hj Hsym Ht. rewrite Hj.
    cbn [truthy py_first py_getitem]. rewrite Hsym.
    unfold py_or. rewrite Ht. reflexivity.
Qed.

(** X10 at work: an error message; an entry with a name only; an entry
    with an empty symbol. *)
Lemma resolution_on_unexpected_bodies_witness :
  resolve_ticker (search_replying error_message) (VStr "Apple") genesis =
    (Raise KeyError, {| fetches := 0; log := [Search (VStr "Apple")] |})
  /\ resolve_ticker
       (search_replying (VList [VDict [("name", VStr "Apple Inc.")]]))
       (VStr "Apple") genesis =
       (Raise KeyError, {| fetches := 0; log := [Search (VStr "Apple")] |})
  /\ resolve_ticker
       (search_replying (VList [VDict [("symbol", VStr "")]]))
       (VStr "Apple") genesis =
       (Ok (VStr "Apple"), {| fetches := 0; log := [Search (VStr "Apple")] |}).
Proof.
  split; [|split].
  - apply (proj1 (resolution_on_unexpected_bodies
                    (search_replying error_message) (VStr "Apple") genesis
                    (ok_response error_message) eq_refl eq_refl)
             ("Error Message", VStr "Invalid API KEY.") []).
    reflexivity.
  - apply (proj1 (proj2 (resolution_on_unexpected_bodies
                    (search_replying (VList [VDict [("name", VStr "Apple Inc.")]]))
                    (VStr "Apple") genesis
                    (ok_response (VList [VDict [("name", VStr "Apple Inc.")]]))
                    eq_refl eq_refl))
             [("name", VStr "Apple Inc.")] []);
      reflexivity.
  - apply (proj2 (proj2 (resolution_on_unexpected_bodies
                    (search_replying (VList [VDict [("symbol", VStr "")]]))
                    (VStr "Apple") genesis
                    (ok_response (VList [VDict [("symbol", VStr "")]]))
                    eq_refl eq_refl))
             [("symbol", VStr "")] [] (VStr ""));
      reflexivity.
Defined.

(** ** Intent extraction: failures and the notice *)



(** X12.  A successful extraction calls the model once and shows the
    "year not specified" notice exactly when the extracted year equals the
    current year, whether the user named that year or not; nothing else is
    added to the log. *)
Theorem year_notice_follows_the_extracted_year
    (chat : string -> completion) (this_year : Z) (user_input : string)
    (w w' : world) (year ticker_or_company : value) :
  extract_year_and_ticker chat this_year user_input w
    = (Ok (year, ticker_or_company), w') ->
  w' = (if py_eq_int year this_year
        then emit (Info YearNotSpecified) (emit (Extract user_input) w)
        else emit (Extract user_input) w)
  /\ (infos (log w') = (infos (log w) ++ [YearNotSpecified])%list
      <-> py_eq_int year this_year = true)
  /\ (forall n, year = VInt n -> (py_eq_int year this_year = true <-> n = this_year)).
Proof.
  unfold extract_year_and_ticker, bind at 1, tell. intros H.
  destruct (chat user_input) as [|content [[|[arguments|] rest]|]];
    try discriminate H.
  unfold bind, lift, ret, st_info, tell in H.
  destruct (py_get arguments "year") as [y|]; [|discriminate H].
  destruct (py_get arguments "ticker_or_company") as [c|]; [|discriminate H].
  assert (Hinfos : forall l e, infos (l ++ [e]) = (infos l ++ infos [e])%list)
    by (intros; apply flat_map_app).
  destruct (py_eq_int y this_year) eqn:Heq; inversion H; subst;
    rewrite Heq; (split; [reflexivity|]); split.
  - cbn [emit log]. rewrite !Hinfos. cbn. rewrite app_nil_r.
    split; reflexivity.
  - intros n Hn. rewrite Hn in Heq. cbn in Heq. apply Z.eqb_eq in Heq.
    split; [intros _; exact Heq | reflexivity].
  - cbn [emit log]. rewrite Hinfos. cbn. rewrite app_nil_r.
    split; [|discriminate]. intros Habs.
    apply (f_equal (@List.length notice)) in Habs.
    rewrite length_app in Habs. cbn in Habs. lia.
  - intros n Hn. rewrite Hn in Heq. cbn in Heq. apply Z.eqb_neq in Heq.
    split; [discriminate | intros Hc; contradiction].
Qed.

(** X12 at work: the model returns the current year. *)
Lemma year_notice_follows_the_extracted_year_witness :
  {| fetches := 0;
     log := [Extract apple_query; Info YearNotSpecified] |}
  = (if py_eq_int (VInt 2024) 2024
     then emit (Info YearNotSpecified) (emit (Extract apple_query) genesis)
     else emit (Extract apple_query) genesis).
Proof.
  apply (year_notice_follows_the_extracted_year apple_chat 2024 apple_query
           genesis
           {| fetches := 0;
              log := [Extract apple_query; Info YearNotSpecified] |}
           (VInt 2024) (VStr "Apple")).
  reflexivity.
Defined.

(** ** The pipeline: what a run may do *)

Lemma within_app (q1 q2 : list string) (s1 r1 a1 s2 r2 a2 : nat)
    (l1 l2 : list event) :
  within q1 s1 r1 a1 l1 -> within q2 s2 r2 a2 l2 ->
  within (q1 ++ q2) (s1 + s2) (r1 + r2) (a1 + a2) (l1 ++ l2).
Proof.
  unfold within, extractions, searches, requested, analyses, shown, downloads.
  intros [E1 [S1 [R1 [A1 [Sh1 D1]]]]] [E2 [S2 [R2 [A2 [Sh2 D2]]]]].
  rewrite !flat_map_app, !length_app, E1, E2, Sh1, Sh2, D1, D2.
  repeat split; lia.
Qed.

Lemma reached_refl (w : world) : reached w w [] 0 0 0.
Proof.
  exists []. rewrite app_nil_r. repeat split; cbn; lia.
Qed.

Lemma reached_trans (w1 w2 w3 : world) (q1 q2 : list string)
    (s1 r1 a1 s2 r2 a2 : nat) :
  reached w1 w2 q1 s1 r1 a1 -> reached w2 w3 q2 s2 r2 a2 ->
  reached w1 w3 (q1 ++ q2) (s1 + s2) (r1 + r2) (a1 + a2).
Proof.
  intros [l1 [L1 W1]] [l2 [L2 W2]]. exists (l1 ++ l2)%list. split.
  - rewrite L2, L1, app_assoc. reflexivity.
  - apply within_app; assumption.
Qed.

Lemma reached_weaken (w w' : world) (qs qs' : list string)
    (s r a s' r' a' : nat) :
  reached w w' qs s r a ->
  qs = qs' -> (s <= s')%nat -> (r <= r')%nat -> (a <= a')%nat ->
  reached w w' qs' s' r' a'.
Proof.
  intros [l [L [E [S [R [A [Sh D]]]]]]] Hq Hs Hr Ha. exists l.
  split; [exact L|]. subst qs'. repeat split; try assumption; lia.
Qed.

(** One more event at the end of the log. *)
Lemma reached_emit (w : world) (ev : event) (qs : list string) (s r a : nat) :
  within qs s r a [ev] -> reached w (emit ev w) qs s r a.
Proof.
  intros H. exists [ev]. split; [reflexivity | exact H].
Qed.

(** Extraction: one call to the model, perhaps a notice. *)
Lemma extract_reached (chat : string -> completion) (this_year : Z)
    (user_input : string) (w : world) :
  reached w (snd (extract_year_and_ticker chat this_year user_input w))
          [user_input] 0 0 0.
Proof.
  unfold extract_year_and_ticker, bind at 1, tell.
  assert (Hasked : reached w (emit (Extract user_input) w) [user_input] 0 0 0)
    by (apply reached_emit; repeat split; cbn; lia).
  destruct (chat user_input) as [|content [[|[arguments|] rest]|]];
    try exact Hasked.
  unfold bind, lift, ret, st_info, tell.
  destruct (py_get arguments "year") as [year|]; [|exact Hasked].
  destruct (py_get arguments "ticker_or_company") as [c|]; [|exact Hasked].
  destruct (py_eq_int year this_year); [|exact Hasked].
  cbn [snd].
  apply (reached_trans _ _ _ [user_input] [] 0 0 0 0 0 0 Hasked).
  apply reached_emit. repeat split; cbn; lia.
Qed.

(** Resolution: one search. *)
Lemma resolve_reached (search : value -> reply) (company : value)
    (w : world) :
  reached w (snd (resolve_ticker search company w)) [] 1 0 0.
Proof.
  unfold resolve_ticker, convert_company_to_ticker, bind, tell, raise, ret,
    lift.
  assert (Hasked : reached w (emit (Search company) w) [] 1 0 0)
    by (apply reached_emit; repeat split; cbn; lia).
  destruct (search company) as [|r]; [exact Hasked|].
  destruct (status_code r =? 200); [|exact Hasked].
  destruct (truthy (json r)); [|exact Hasked].
  destruct (py_first (json r)) as [top|]; [|exact Hasked].
  destruct (py_getitem top "symbol"); exact Hasked.
Qed.

(** The fetcher adds none of the other events. *)
Lemma fetcher_event_only (evs : list event) :
  Forall fetcher_event evs ->
  extractions evs = [] /\ searches evs = [] /\ downloads evs = [].
Proof.
  induction 1 as [|e evs He _ [IH1 [IH2 IH3]]]; [repeat split|].
  destruct e; try contradiction; repeat split; assumption.
Qed.

(** The fetch: requests within the budget, nothing else. *)
Lemma fetch_reached (svc : nat -> value -> value -> reply) (t yv : value)
    (max_retries year_retries : Z) (w : world) :
  reached w (snd (get_transcripts_run svc t yv max_retries year_retries w))
          [] 0 (Z.to_nat year_retries * Z.to_nat max_retries) 0.
Proof.
  unfold get_transcripts_run.
  destruct (for_years_log svc t max_retries (Z.to_nat year_retries) yv w)
    as [evs [Hw [Hf Hc]]].
  exists evs. rewrite Hw. split; [reflexivity|].
  destruct (fetcher_event_only evs Hf) as [He [Hs Hd]].
  destruct (fetcher_event_shown evs Hf) as [Hsh Ha].
  unfold within. rewrite He, Hs, Hd, Hsh, Ha. repeat split; cbn; try lia.
  exact (candidate_years_length t max_retries _ yv _ Hc).
Qed.

(** The analysis: one call to the model, or none when the transcript has
    no content to send. *)
Lemma analyze_reached (chat : value -> completion) (transcript : value)
    (w : world) :
  reached w (snd (analyze_transcript chat transcript w)) [] 0 0 1.
Proof.
  unfold analyze_transcript, bind at 1, lift.
  destruct (py_getitem transcript "content") as [content|e].
  - unfold bind, tell.
    assert (Hasked : reached w (emit (Analyze content) w) [] 0 0 1)
      by (apply reached_emit; repeat split; cbn; lia).
    destruct (chat content); exact Hasked.
  - cbn [snd].
    apply reached_weaken with (qs := []) (s := 0%nat) (r := 0%nat) (a := 0%nat);
      [apply reached_refl | reflexivity | lia..].
Qed.

Section PipelineRuns.

Variable chat_with_tools : string -> completion.
Variable chat_analysis : value -> completion.
Variable search_service : value -> reply.
Variable transcript_service : nat -> value -> value -> reply.
Variable this_year : Z.

Lemma process_reached (user_input : string) (w : world) :
  reached w
    (snd (process_user_input chat_with_tools chat_analysis search_service
            transcript_service this_year user_input w))
    [user_input] 1 15 1.
Proof.
  unfold process_user_input. unfold bind at 1.
  pose proof (extract_reached chat_with_tools this_year user_input w) as R1.
  destruct (extract_year_and_ticker chat_with_tools this_year user_input w)
    as [[extracted|e] w1]; cbn [snd] in R1 |- *;
    [|apply reached_weaken with (1 := R1); [reflexivity | lia..]].
  unfold bind at 1.
  pose proof (resolve_reached search_service (snd extracted) w1) as R2.
  pose proof (reached_trans _ _ _ _ _ _ _ _ _ _ _ R1 R2) as R12.
  destruct (resolve_ticker search_service (snd extracted) w1)
    as [[ticker|e] w2]; cbn [snd] in R2, R12 |- *;
    [|apply reached_weaken with (1 := R12); [reflexivity | lia..]].
  unfold get_transcripts. unfold bind at 1. unfold bind at 1.
  pose proof (fetch_reached transcript_service ticker (fst extracted) 5 3 w2)
    as R3.
  change (Z.to_nat 3 * Z.to_nat 5)%nat with 15%nat in R3.
  pose proof (reached_trans _ _ _ _ _ _ _ _ _ _ _ R12 R3) as R123.
  destruct (get_transcripts_run transcript_service ticker (fst extracted) 5 3 w2)
    as [[fetched|e] w3]; cbn [snd] in R3, R123 |- *;
    [|apply reached_weaken with (1 := R123); [reflexivity | lia..]].
  unfold ret at 1.
  destruct (truthy (return_value (fst fetched)));
    [|cbn [snd]; apply reached_weaken with (1 := R123); [reflexivity | lia..]].
  unfold bind at 1.
  pose proof (analyze_reached chat_analysis (return_value (fst fetched)) w3)
    as R4.
  pose proof (reached_trans _ _ _ _ _ _ _ _ _ _ _ R123 R4) as R1234.
  destruct (analyze_transcript chat_analysis (return_value (fst fetched)) w3)
    as [[analysis|e] w4]; cbn [snd] in R4, R1234 |- *;
    apply reached_weaken with (1 := R1234); first [reflexivity | lia].
Qed.

(** X13.  Whatever the model and the services answer, one run of
    [process_user_input] calls the model for extraction exactly once, with
    the user's query, searches at most once, makes at most 15 transcript
    requests (5 attempts for each of 3 years), asks for at most one
    analysis, and neither shows anything of the report nor downloads
    prices. *)
Theorem one_run_stays_within_its_budget (user_input : string) (w : world) :
  exists evs,
    log (snd (process_user_input chat_with_tools chat_analysis search_service
                transcript_service this_year user_input w))
      = (log w ++ evs)%list
    /\ extractions evs = [user_input]
    /\ (List.length (searches evs) <= 1)%nat
    /\ (List.length (requested evs) <= 15)%nat
    /\ (List.length (analyses evs) <= 1)%nat
    /\ shown evs = []
    /\ downloads evs = [].
Proof.
  exact (process_reached user_input w).
Qed.

End PipelineRuns.

(** ** The pipeline and the page *)

(** The chart, step by step: nothing is logged before the download. *)
Lemma generate_price_chart_unfold (now : datetime)
    (ticker earnings_date year : value) (w : world) :
  generate_price_chart now ticker earnings_date year w =
  match parse_earnings_date earnings_date with
  | Raise e => (Raise e, w)
  | Ok d =>
      match datetime_add d (- timedelta_days 30) with
      | Raise e => (Raise e, w)
      | Ok start_date =>
          match datetime_add d (timedelta_days 30) with
          | Raise e => (Raise e, w)
          | Ok later =>
              (Ok {| fig_ticker := ticker; fig_marker := d;
                     fig_range := (start_date, Z.min later now) |},
               emit (Download ticker start_date (Z.min later now)) w)
          end
      end
  end.
Proof.
  unfold generate_price_chart, bind, lift, tell, ret.
  destruct (parse_earnings_date earnings_date) as [d|e]; [|reflexivity].
  destruct (datetime_add d (- timedelta_days 30)) as [s|e]; [|reflexivity].
  destruct (datetime_add d (timedelta_days 30)) as [l|e]; reflexivity.
Qed.

Section ReportRuns.

Variable chat_with_tools : string -> completion.
Variable chat_analysis : value -> completion.
Variable search_service : value -> reply.
Variable transcript_service : nat -> value -> value -> reply.
Variable this_year : Z.
Variable now : datetime.

(** X14.  [process_user_input] never returns a transcript without its
    analysis: it returns either two nulls, and then the model was not asked
    for an analysis, or a truthy transcript together with what the model
    answered when it was sent that transcript's content, once. *)
Theorem a_transcript_comes_with_its_analysis
    (user_input : string) (w w' : world) (transcript analysis : value) :
  process_user_input chat_with_tools chat_analysis search_service
    transcript_service this_year user_input w
    = (Ok (transcript, analysis), w') ->
  (transcript = VNone /\ analysis = VNone
   /\ analyses (log w') = analyses (log w))
  \/ (truthy transcript = true
      /\ exists content tool_calls,
           py_getitem transcript "content" = Ok content
           /\ chat_analysis content = Completion analysis tool_calls
           /\ analyses (log w') = (analyses (log w) ++ [content])%list).
Proof.
  unfold process_user_input. unfold bind at 1.
  pose proof (extract_same_report chat_with_tools this_year user_input w)
    as [_ A1].
  destruct (extract_year_and_ticker chat_with_tools this_year user_input w)
    as [[extracted|e] w1]; [|discriminate]. cbn [snd] in A1.
  unfold bind at 1.
  pose proof (resolve_same_report search_service (snd extracted) w1)
    as [_ A2].
  destruct (resolve_ticker search_service (snd extracted) w1)
    as [[ticker|e] w2]; [|discriminate]. cbn [snd] in A2.
  unfold get_transcripts. unfold bind at 1. unfold bind at 1.
  pose proof (fetch_same_report transcript_service ticker (fst extracted)
                5 3 w2) as [_ A3].
  destruct (get_transcripts_run transcript_service ticker (fst extracted) 5 3 w2)
    as [[fetched|e] w3]; [|discriminate]. cbn [snd] in A3.
  unfold ret at 1.
  destruct (truthy (return_value (fst fetched))) eqn:Ht.
  - unfold analyze_transcript, bind, lift, tell, ret.
    destruct (py_getitem (return_value (fst fetched)) "content")
      as [content|e] eqn:Hc; [|discriminate].
    destruct (chat_analysis content) as [|answer tool_calls] eqn:Ha;
      [discriminate|].
    intros H. inversion H. subst. right. split; [exact Ht|].
    exists content, tool_calls. repeat split; try assumption.
    cbn [emit log]. rewrite analyses_app. cbn. congruence.
  - intros H. inversion H. subst. left. repeat split. congruence.
Qed.

(** X15.  When the analysis comes back empty or null, [main] shows the
    failure notice and nothing of the report, not even the transcript that
    was fetched. *)
Theorem empty_analysis_is_reported_as_failure
    (user_input : string) (w w2 : world) (transcript analysis : value) :
  user_input <> "" ->
  process_user_input chat_with_tools chat_analysis search_service
    transcript_service this_year user_input (page_opened w)
    = (Ok (transcript, analysis), w2) ->
  truthy analysis = false ->
  main chat_with_tools chat_analysis search_service transcript_service
       this_year now user_input w
    = (Ok tt, emit (Error UnableToFetch) w2)
  /\ shown (log (emit (Error UnableToFetch) w2))
     = (shown (log w) ++ [Title; Intro])%list.
Proof.
  intros Hinput Hrun Hempty. split.
  - unfold main. unfold bind at 1. unfold tell at 1. unfold bind at 1.
    unfold tell at 1. apply String.eqb_neq in Hinput. rewrite Hinput.
    cbn [negb]. unfold bind at 1. unfold page_opened in Hrun. rewrite Hrun.
    cbn [fst snd]. unfold py_and.
    destruct (truthy transcript) eqn:Ht; [rewrite Hempty | rewrite Ht];
      reflexivity.
  - destruct (process_reached chat_with_tools chat_analysis search_service
                transcript_service this_year user_input (page_opened w))
      as [evs [L [_ [_ [_ [_ [Sh _]]]]]]].
    rewrite Hrun in L. cbn [snd] in L. cbn [emit log]. rewrite L.
    unfold page_opened. cbn [emit log].
    rewrite !shown_app, Sh. cbn. rewrite !app_nil_r, <- app_assoc.
    reflexivity.
Qed.

(** X16.  A run that gets a transcript with its four fields and a
    non-empty analysis shows, in this order and nothing else: title,
    introduction, header with symbol and date, heading, chart, analysis,
    full transcript.  Prices are downloaded once, for the transcript's
    symbol and the range the chart is drawn over, and the marker is the
    parsed call date. *)
Theorem a_full_report_in_order
    (user_input : string) (w w2 w3 : world)
    (transcript analysis symbol date year content : value) (fig : figure) :
  user_input <> "" ->
  process_user_input chat_with_tools chat_analysis search_service
    transcript_service this_year user_input (page_opened w)
    = (Ok (transcript, analysis), w2) ->
  truthy transcript = true ->
  truthy analysis = true ->
  py_getitem transcript "symbol" = Ok symbol ->
  py_getitem transcript "date" = Ok date ->
  py_getitem transcript "year" = Ok year ->
  py_getitem transcript "content" = Ok content ->
  generate_price_chart now symbol date year (header_shown symbol date w2)
    = (Ok fig, w3) ->
  let final :=
    emit (Show (FullTranscript content))
      (emit (Show (AnalysisText analysis))
         (emit (Show (PlotlyChart fig)) w3)) in
  main chat_with_tools chat_analysis search_service transcript_service
       this_year now user_input w = (Ok tt, final)
  /\ shown (log final)
     = (shown (log w)
        ++ [Title; Intro; Subheader symbol date; AnalysisHeading;
            PlotlyChart fig; AnalysisText analysis; FullTranscript content])%list
  /\ downloads (log final)
     = (downloads (log w)
        ++ [(symbol, fst (fig_range fig), snd (fig_range fig))])%list
  /\ parse_earnings_date date = Ok (fig_marker fig).
Proof.
  intros Hinput Hrun Ht Ha Hsym Hdate Hyear Hcontent Hchart final.
  assert (Hmain : main chat_with_tools chat_analysis search_service
                    transcript_service this_year now user_input w
                  = (Ok tt, final)).
  { unfold main. unfold bind at 1. unfold tell at 1. unfold bind at 1.
    unfold tell at 1. apply String.eqb_neq in Hinput. rewrite Hinput.
    cbn [negb]. unfold bind at 1. unfold page_opened in Hrun. rewrite Hrun.
    cbn [fst snd]. unfold py_and. rewrite Ht, Ha.
    unfold bind, lift, tell. rewrite Hsym, Hdate, Hyear.
    unfold header_shown in Hchart. rewrite Hchart, Hcontent. reflexivity. }
  split; [exact Hmain|].
  destruct (process_reached chat_with_tools chat_analysis search_service
              transcript_service this_year user_input (page_opened w))
    as [evs [L [_ [_ [_ [_ [Sh D]]]]]]].
  rewrite Hrun in L. cbn [snd] in L.
  rewrite generate_price_chart_unfold in Hchart.
  destruct (parse_earnings_date date) as [d|e]; [|discriminate].
  destruct (datetime_add d (- timedelta_days 30)) as [s|e]; [|discriminate].
  destruct (datetime_add d (timedelta_days 30)) as [l|e]; [|discriminate].
  inversion Hchart. subst fig w3. clear Hchart.
  assert (Hd : forall a b, downloads (a ++ b) = (downloads a ++ downloads b)%list)
    by (intros; apply flat_map_app).
  unfold final, header_shown, page_opened. cbn [emit log fig_range fig_marker fst snd].
  rewrite L. unfold page_opened. cbn [emit log].
  repeat split.
  - rewrite !shown_app, Sh. cbn. rewrite !app_nil_r, <- !app_assoc.
    reflexivity.
  - rewrite !Hd, D. cbn. rewrite !app_nil_r. reflexivity.
Qed.

End ReportRuns.

(** X14 at work: Apple, whose latest transcript is the one of 2022. *)
Lemma a_transcript_comes_with_its_analysis_witness :
  let w' := snd (process_user_input apple_chat analyst apple_search only_2022
                   2026 apple_query genesis) in
  (transcript_2022 = VNone /\ VStr "A cautious quarter." = VNone
   /\ analyses (log w') = analyses (log genesis))
  \/ (truthy transcript_2022 = true
      /\ exists content tool_calls,
           py_getitem transcript_2022 "content" = Ok content
           /\ analyst content = Completion (VStr "A cautious quarter.") tool_calls
           /\ analyses (log w') = (analyses (log genesis) ++ [content])%list).
Proof.
  apply (a_transcript_comes_with_its_analysis apple_chat analyst apple_search
           only_2022 2026 apple_query genesis).
  reflexivity.
Defined.

(** X15 at work: the transcript of 2022 is found, the model answers with no
    content. *)
Lemma empty_analysis_is_reported_as_failure_witness :
  fst (main apple_chat silent_analyst apple_search only_2022 2026 long_after
            apple_query genesis) = Ok tt
  /\ shown (log (snd (main apple_chat silent_analyst apple_search only_2022
                           2026 long_after apple_query genesis)))
     = [Title; Intro]
  /\ analyses (log (snd (main apple_chat silent_analyst apple_search
                              only_2022 2026 long_after apple_query genesis)))
     = [VStr "Good afternoon."].
Proof.
  pose (w2 := snd (process_user_input apple_chat silent_analyst apple_search
                     only_2022 2026 apple_query (page_opened genesis))).
  assert (H1 : apple_query <> "") by discriminate.
  assert (H2 : process_user_input apple_chat silent_analyst apple_search
                 only_2022 2026 apple_query (page_opened genesis)
               = (Ok (transcript_2022, VNone), w2)) by reflexivity.
  destruct (empty_analysis_is_reported_as_failure apple_chat silent_analyst
              apple_search only_2022 2026 long_after apple_query genesis w2
              transcript_2022 VNone H1 H2 eq_refl) as [Hmain Hshown].
  rewrite Hmain. cbn [fst snd]. split; [reflexivity|].
  split; [exact Hshown | reflexivity].
Defined.

(** X16 at work: Apple's transcript of 2022, read on 2024-10-01. *)
Lemma a_full_report_in_order_witness :
  shown (log (snd (main apple_chat analyst apple_search only_2022 2026
                        long_after apple_query genesis)))
  = [Title; Intro;
     Subheader (VStr "AAPL") (VStr "2022-07-28 17:00:00"); AnalysisHeading;
     PlotlyChart {| fig_ticker := VStr "AAPL";
                    fig_marker := 63794624400000000;
                    fig_range := (63794624400000000 - timedelta_days 30,
                                  63794624400000000 + timedelta_days 30) |};
     AnalysisText (VStr "A cautious quarter.");
     FullTranscript (VStr "Good afternoon.")].
Proof.
  pose (w2 := snd (process_user_input apple_chat analyst apple_search
                     only_2022 2026 apple_query (page_opened genesis))).
  pose (fig := {| fig_ticker := VStr "AAPL";
                  fig_marker := 63794624400000000;
                  fig_range := (63794624400000000 - timedelta_days 30,
                                63794624400000000 + timedelta_days 30) |}).
  pose (w3 := emit (Download (VStr "AAPL")
                      (63794624400000000 - timedelta_days 30)
                      (63794624400000000 + timedelta_days 30))
                   (header_shown (VStr "AAPL") (VStr "2022-07-28 17:00:00") w2)).
  assert (H1 : apple_query <> "") by discriminate.
  assert (H2 : process_user_input apple_chat analyst apple_search only_2022
                 2026 apple_query (page_opened genesis)
               = (Ok (transcript_2022, VStr "A cautious quarter."), w2))
    by reflexivity.
  assert (H3 : generate_price_chart long_after (VStr "AAPL")
                 (VStr "2022-07-28 17:00:00") (VInt 2022)
                 (header_shown (VStr "AAPL") (VStr "2022-07-28 17:00:00") w2)
               = (Ok fig, w3)) by reflexivity.
  destruct (a_full_report_in_order apple_chat analyst apple_search only_2022
              2026 long_after apple_query genesis w2 w3
              transcript_2022 (VStr "A cautious quarter.")
              (VStr "AAPL") (VStr "2022-07-28 17:00:00") (VInt 2022)
              (VStr "Good afternoon.") fig
              H1 H2 eq_refl eq_refl eq_refl eq_refl eq_refl eq_refl H3)
    as [Hmain [Hshown _]].
  rewrite Hmain. exact Hshown.
Defined.


(** ** When the search fails *)

(** A search that fails in transport ends the whole run: neither
    [process_user_input] nor [main] has a handler, so the exception of
    line 82 leaves both, before any transcript is asked for. *)
Lemma search_failure_leaves_the_pipeline
    (chat_with_tools : string -> completion) (chat_analysis : value -> completion)
    (search_service : value -> reply)
    (transcript_service : nat -> value -> value -> reply)
    (this_year : Z) (now : datetime)
    (user_input : string) (w w1 : world) (year ticker_or_company : value) :
  user_input <> "" ->
  extract_year_and_ticker chat_with_tools this_year user_input (page_opened w)
    = (Ok (year, ticker_or_company), w1) ->
  search_service ticker_or_company = Unreachable ->
  process_user_input chat_with_tools chat_analysis search_service
    transcript_service this_year user_input (page_opened w)
    = (Raise RequestException, emit (Search ticker_or_company) w1)
  /\ main chat_with_tools chat_analysis search_service transcript_service
          this_year now user_input w
     = (Raise RequestException, emit (Search ticker_or_company) w1).
Proof.
  intros Hinput Hextract Hsearch.
  assert (Hrun : process_user_input chat_with_tools chat_analysis
                   search_service transcript_service this_year user_input
                   (page_opened w)
                 = (Raise RequestException, emit (Search ticker_or_company) w1)).
  { unfold process_user_input. unfold bind at 1. rewrite Hextract.
    unfold bind at 1. cbn [fst snd].
    unfold resolve_ticker, convert_company_to_ticker, bind, tell, raise.
    rewrite Hsearch. reflexivity. }
  split; [exact Hrun|].
  unfold main. unfold bind at 1. unfold tell at 1. unfold bind at 1.
  unfold tell at 1. apply String.eqb_neq in Hinput. rewrite Hinput.
  cbn [negb]. unfold bind at 1. unfold page_opened in Hrun. rewrite Hrun.
  reflexivity.
Qed.

(** ** When the report breaks off *)

Section BrokenReports.

Variable chat_with_tools : string -> completion.
Variable chat_analysis : value -> completion.
Variable search_service : value -> reply.
Variable transcript_service : nat -> value -> value -> reply.
Variable this_year : Z.
Variable now : datetime.

(** X17.  The header of the report is on the page before the chart is
    made.  When the transcript has no ["year"], or its date is in neither
    format, [main] ends with that exception after having shown the header
    and the heading: no chart, no analysis, no transcript, and no failure
    notice of its own either. *)
Theorem header_stays_when_the_chart_fails
    (user_input : string) (w w2 : world)
    (transcript analysis symbol date : value) :
  user_input <> "" ->
  process_user_input chat_with_tools chat_analysis search_service
    transcript_service this_year user_input (page_opened w)
    = (Ok (transcript, analysis), w2) ->
  truthy transcript = true ->
  truthy analysis = true ->
  py_getitem transcript "symbol" = Ok symbol ->
  py_getitem transcript "date" = Ok date ->
  let broken := header_shown symbol date w2 in
  (forall e,
      py_getitem transcript "year" = Raise e ->
      main chat_with_tools chat_analysis search_service transcript_service
           this_year now user_input w = (Raise e, broken))
  /\
  (forall year e,
      py_getitem transcript "year" = Ok year ->
      parse_earnings_date date = Raise e ->
      main chat_with_tools chat_analysis search_service transcript_service
           this_year now user_input w = (Raise e, broken))
  /\ shown (log broken)
     = (shown (log w)
        ++ [Title; Intro; Subheader symbol date; AnalysisHeading])%list
  /\ errors (log broken) = errors (log w2).
Proof.
  intros Hinput Hrun Ht Ha Hsym Hdate broken.
  assert (Hmain :
    main chat_with_tools chat_analysis search_service transcript_service
         this_year now user_input w
    = (year <- lift (py_getitem transcript "year") ;;
       chart <- generate_price_chart now symbol date year ;;
       tell (Show (PlotlyChart chart)) ;;
       tell (Show (AnalysisText analysis)) ;;
       content <- lift (py_getitem transcript "content") ;;
       tell (Show (FullTranscript content))) broken).
  { unfold main. unfold bind at 1. unfold tell at 1. unfold bind at 1.
    unfold tell at 1. apply String.eqb_neq in Hinput. rewrite Hinput.
    cbn [negb]. unfold bind at 1. unfold page_opened in Hrun. rewrite Hrun.
    cbn [fst snd]. unfold py_and. rewrite Ht, Ha.
    unfold bind, lift, tell. rewrite Hsym, Hdate. reflexivity. }
  repeat split.
  - intros e Hyear. rewrite Hmain. unfold bind at 1. unfold lift at 1.
    rewrite Hyear. reflexivity.
  - intros year e Hyear Hparse. rewrite Hmain. unfold bind at 1.
    unfold lift at 1. rewrite Hyear. unfold bind at 1.
    rewrite generate_price_chart_unfold, Hparse. reflexivity.
  - destruct (process_reached chat_with_tools chat_analysis search_service
                transcript_service this_year user_input (page_opened w))
      as [evs [L [_ [_ [_ [_ [Sh _]]]]]]].
    rewrite Hrun in L. cbn [snd] in L.
    unfold broken, header_shown. cbn [emit log]. rewrite L.
    unfold page_opened. cbn [emit log].
    rewrite !shown_app, Sh. cbn. rewrite !app_nil_r, <- !app_assoc.
    reflexivity.
  - unfold broken, header_shown, errors. cbn [emit log].
    rewrite !flat_map_app. cbn. rewrite !app_nil_r. reflexivity.
Qed.

End BrokenReports.

(** X17 at work: a transcript dated ["Q3 2022"]. *)
Lemma header_stays_when_the_chart_fails_witness :
  fst (main apple_chat analyst apple_search only_undated 2026 long_after
            apple_query genesis) = Raise ValueError
  /\ shown (log (snd (main apple_chat analyst apple_search only_undated 2026
                           long_after apple_query genesis)))
     = [Title; Intro; Subheader (VStr "AAPL") (VStr "Q3 2022");
        AnalysisHeading].
Proof.
  pose (w2 := snd (process_user_input apple_chat analyst apple_search
                     only_undated 2026 apple_query (page_opened genesis))).
  assert (H1 : apple_query <> "") by discriminate.
  assert (H2 : process_user_input apple_chat analyst apple_search only_undated
                 2026 apple_query (page_opened genesis)
               = (Ok (undated_transcript, VStr "A cautious quarter."), w2))
    by reflexivity.
  destruct (header_stays_when_the_chart_fails apple_chat analyst apple_search
              only_undated 2026 long_after apple_query genesis w2
              undated_transcript (VStr "A cautious quarter.")
              (VStr "AAPL") (VStr "Q3 2022")
              H1 H2 eq_refl eq_refl eq_refl eq_refl)
    as [_ [Hdate [Hshown _]]].
  rewrite (Hdate (VInt 2022) ValueError eq_refl eq_refl). cbn [fst snd].
  split; [reflexivity | exact Hshown].
Defined.

(** ** The chart *)

(** X18.  [generate_price_chart] asks the price source exactly once, for
    the ticker it was given and the very range it draws, and only after the
    date and both ends of the range were computed: when it raises (a date
    that is no string, no date in either format, or within 30 days of the
    first or last representable day) nothing has been asked. *)
Theorem prices_are_asked_once_or_never
    (now : datetime) (ticker earnings_date year : value) (w : world) :
  match generate_price_chart now ticker earnings_date year w with
  | (Ok fig, w') =>
      w' = emit (Download ticker (fst (fig_range fig)) (snd (fig_range fig))) w
      /\ fig_ticker fig = ticker
      /\ parse_earnings_date earnings_date = Ok (fig_marker fig)
  | (Raise e, w') =>
      w' = w
      /\ ((e = TypeError /\ forall s, earnings_date <> VStr s)
          \/ (e = ValueError /\ exists s, earnings_date = VStr s)
          \/ e = OverflowError)
  end.
Proof.
  rewrite generate_price_chart_unfold.
  destruct (parse_earnings_date earnings_date) as [d|e] eqn:Hparse.
  - assert (Hadd : forall delta e, datetime_add d delta = Raise e ->
                                   e = OverflowError).
    { intros delta e. unfold datetime_add.
      destruct ((0 <=? d + delta) && (d + delta <=? datetime_max));
        intros H; inversion H; reflexivity. }
    destruct (datetime_add d (- timedelta_days 30)) as [s|e] eqn:Hs;
      [|split; [reflexivity | right; right; exact (Hadd _ _ Hs)]].
    destruct (datetime_add d (timedelta_days 30)) as [l|e] eqn:Hl;
      [|split; [reflexivity | right; right; exact (Hadd _ _ Hl)]].
    repeat split.
  - split; [reflexivity|]. unfold parse_earnings_date in Hparse.
    destruct earnings_date as [| | |s| |];
      try (inversion Hparse; left; split; [reflexivity | discriminate]).
    right; left. split; [|exists s; reflexivity].
    destruct (strptime_date_time s); [discriminate|].
    destruct (strptime_date s); [discriminate|].
    inversion Hparse. reflexivity.
Qed.

(** X19.  Of a chart that was made: the range starts 30 days before the
    marker, so the marker is never left of it; the marker lies inside the
    range exactly when the call is not in the future, and the range is
    empty or reversed (its end before its start) exactly when the call is
    more than 30 days ahead. *)
Theorem marker_and_range
    (now : datetime) (ticker earnings_date year : value) (w w' : world)
    (fig : figure) :
  generate_price_chart now ticker earnings_date year w = (Ok fig, w') ->
  let start_date := fst (fig_range fig) in
  let end_date := snd (fig_range fig) in
  let marker := fig_marker fig in
  start_date = marker - timedelta_days 30
  /\ start_date < marker
  /\ end_date <= now
  /\ end_date <= marker + timedelta_days 30
  /\ (marker <= end_date <-> marker <= now)
  /\ (end_date < start_date <-> now < start_date).
Proof.
  rewrite generate_price_chart_unfold. intros H.
  destruct (parse_earnings_date earnings_date) as [d|e]; [|discriminate].
  unfold datetime_add in H.
  destruct ((0 <=? d + - timedelta_days 30)
            && (d + - timedelta_days 30 <=? datetime_max)); [|discriminate].
  destruct ((0 <=? d + timedelta_days 30)
            && (d + timedelta_days 30 <=? datetime_max)); [|discriminate].
  inversion H. subst fig w'. clear H.
  cbn [fig_range fig_marker fst snd].
  assert (Hday : timedelta_days 30 = 2592000000000) by reflexivity.
  rewrite Hday. repeat split; lia.
Qed.

(** X19 at work: the call of 2022-07-28 seen eight weeks earlier. *)
Lemma marker_and_range_witness :
  let fig := {| fig_ticker := VStr "AAPL";
                fig_marker := 63794624400000000;
                fig_range := (63794624400000000 - timedelta_days 30,
                              long_before) |} in
  snd (fig_range fig) < fst (fig_range fig)
  <-> long_before < fst (fig_range fig).
Proof.
  intros fig.
  apply (marker_and_range long_before (VStr "AAPL")
           (VStr "2022-07-28 17:00:00") (VInt 2022) genesis
           (emit (Download (VStr "AAPL")
                    (63794624400000000 - timedelta_days 30) long_before)
                 genesis) fig).
  reflexivity.
Defined.

(** ** The two date formats *)

Lemma digit_of_digit_char (d : Z) :
  0 <= d <= 9 -> digit_of (digit_char d) = Some d.
Proof.
  intros H.
  assert (C : d = 0 \/ d = 1 \/ d = 2 \/ d = 3 \/ d = 4 \/ d = 5 \/ d = 6
              \/ d = 7 \/ d = 8 \/ d = 9) by lia.
  repeat (destruct C as [C|C]; [subst d; reflexivity|]).
  subst d. reflexivity.
Qed.

Lemma regex_space_digit_char (d : Z) :
  0 <= d <= 9 -> regex_space (digit_char d) = false.
Proof.
  intros H.
  assert (C : d = 0 \/ d = 1 \/ d = 2 \/ d = 3 \/ d = 4 \/ d = 5 \/ d = 6
              \/ d = 7 \/ d = 8 \/ d = 9) by lia.
  repeat (destruct C as [C|C]; [subst d; reflexivity|]).
  subst d. reflexivity.
Qed.

Lemma digits2_two_digits (n : Z) (rest : string) :
  0 <= n <= 99 -> digits2 (two_digits n rest) = Some (n, rest).
Proof.
  intros H. unfold digits2, two_digits.
  assert (Hq : 0 <= n / 10 <= 9)
    by (split; [apply Z.div_pos; lia
               | apply Z.lt_succ_r, Z.div_lt_upper_bound; lia]).
  assert (Hr : 0 <= n mod 10 <= 9)
    by (pose proof (Z.mod_pos_bound n 10); lia).
  rewrite (digit_of_digit_char _ Hq), (digit_of_digit_char _ Hr).
  f_equal. f_equal. pose proof (Z.div_mod n 10). lia.
Qed.

Lemma field_two_digits (lo2 hi2 lo1 n : Z) (rest : string) :
  0 <= n <= 99 -> lo2 <= n <= hi2 ->
  field lo2 hi2 lo1 (two_digits n rest) = Some (n, rest).
Proof.
  intros Hn Hr. unfold field. rewrite (digits2_two_digits n rest Hn).
  replace ((lo2 <=? n) && (n <=? hi2)) with true
    by (symmetry; apply andb_true_iff; split; apply Z.leb_le; lia).
  reflexivity.
Qed.

Lemma field_Y_four_digits (y : Z) (rest : string) :
  0 <= y <= 9999 ->
  field_Y (two_digits (y / 100) (two_digits (y mod 100) rest))
  = Some (y, rest).
Proof.
  intros H. unfold field_Y.
  assert (Hq : 0 <= y / 100 <= 99)
    by (split; [apply Z.div_pos; lia
               | apply Z.lt_succ_r, Z.div_lt_upper_bound; lia]).
  assert (Hr : 0 <= y mod 100 <= 99)
    by (pose proof (Z.mod_pos_bound y 100); lia).
  rewrite (digits2_two_digits _ _ Hq), (digits2_two_digits _ _ Hr).
  f_equal. f_equal. pose proof (Z.div_mod y 100). lia.
Qed.

Lemma parse_date_iso (y m d : Z) (rest : string) :
  1 <= y <= 9999 -> 1 <= m <= 12 -> 1 <= d <= 31 ->
  parse_date (iso_date y m d rest) = Some (y, m, d, rest).
Proof.
  intros Hy Hm Hd. unfold parse_date, iso_date, obind.
  rewrite field_Y_four_digits by lia. cbn [expect Ascii.eqb Bool.eqb].
  unfold field_m. rewrite field_two_digits by lia.
  cbn [expect Ascii.eqb Bool.eqb].
  unfold field_d. rewrite field_two_digits by lia. reflexivity.
Qed.

(** What [make_datetime] accepts. *)
Lemma make_datetime_fields (y m d hour minute sec : Z) (dt : datetime) :
  make_datetime y m d hour minute sec = Some dt ->
  1 <= y <= 9999 /\ 1 <= m <= 12 /\ 1 <= d <= days_in_month y m
  /\ 0 <= hour <= 23 /\ 0 <= minute <= 59 /\ 0 <= sec <= 59.
Proof.
  unfold make_datetime.
  destruct ((1 <=? y) && (y <=? 9999) && (1 <=? m) && (m <=? 12)
            && (1 <=? d) && (d <=? days_in_month y m)
            && (0 <=? hour) && (hour <=? 23) && (0 <=? minute)
            && (minute <=? 59) && (0 <=? sec) && (sec <=? 59)) eqn:E;
    [|discriminate].
  intros _. repeat (apply andb_true_iff in E; destruct E as [E ?]).
  repeat match goal with
         | H : (_ <=? _) = true |- _ => apply Z.leb_le in H
         end.
  lia.
Qed.

Lemma days_in_month_at_most_31 (y m : Z) : days_in_month y m <= 31.
Proof.
  unfold days_in_month.
  destruct m as [|p|p]; try lia.
  repeat (destruct p as [p|p|]; try lia; try (destruct (is_leap y); lia)).
Qed.

(** The moment [make_datetime] gives for fields in range. *)
Lemma make_datetime_value (y m d hour minute sec : Z) :
  1 <= y <= 9999 /\ 1 <= m <= 12 /\ 1 <= d <= days_in_month y m
  /\ 0 <= hour <= 23 /\ 0 <= minute <= 59 /\ 0 <= sec <= 59 ->
  make_datetime y m d hour minute sec
  = Some ((days_before_year y + days_before_month y m + (d - 1)) * day
          + (hour * 3600 + minute * 60 + sec) * second).
Proof.
  intros H. unfold make_datetime.
  match goal with
  | |- (if ?c then _ else _) = _ => assert (C : c = true)
  end.
  { repeat (apply andb_true_iff; split); apply Z.leb_le; lia. }
  rewrite C. reflexivity.
Qed.

(** X20.  Both formats of the call date are read, and to the same day: a
    timestamp ["YYYY-MM-DD HH:MM:SS"] of a real date and time of day is
    read by the first format as that moment, and the bare date
    ["YYYY-MM-DD"], which the first format refuses, is read by the second
    as midnight of that day. *)
Theorem both_date_formats_are_read
    (y m d hour minute sec : Z) (dt : datetime) :
  make_datetime y m d hour minute sec = Some dt ->
  parse_earnings_date (VStr (iso_date_time y m d hour minute sec)) = Ok dt
  /\ strptime_date_time (iso_date y m d "") = None
  /\ parse_earnings_date (VStr (iso_date y m d ""))
     = Ok (dt - (hour * 3600 + minute * 60 + sec) * second).
Proof.
  intros Hmake.
  destruct (make_datetime_fields _ _ _ _ _ _ _ Hmake)
    as [Hy [Hm [Hd [Hh [Hmin Hs]]]]].
  pose proof (days_in_month_at_most_31 y m) as H31.
  assert (Hdate : forall rest,
             parse_date (iso_date y m d rest) = Some (y, m, d, rest))
    by (intros rest; apply parse_date_iso; lia).
  assert (Hfirst : strptime_date_time (iso_date y m d "") = None)
    by (unfold strptime_date_time, obind; rewrite Hdate; reflexivity).
  split; [|split; [exact Hfirst|]].
  - unfold parse_earnings_date, strptime_date_time, iso_date_time, obind.
    rewrite Hdate.
    assert (Hsp : forall n rest, 0 <= n <= 99 ->
               expect_spaces (String " " (two_digits n rest))
               = Some (two_digits n rest)).
    { intros n rest Hn. unfold expect_spaces, two_digits.
      change (regex_space " ") with true. cbn iota. cbn [lstrip].
      rewrite regex_space_digit_char; [reflexivity|].
      split; [apply Z.div_pos; lia
             | apply Z.lt_succ_r, Z.div_lt_upper_bound; lia]. }
    rewrite Hsp by lia.
    unfold field_H. rewrite field_two_digits by lia.
    cbn [expect Ascii.eqb Bool.eqb].
    unfold field_M. rewrite field_two_digits by lia.
    cbn [expect Ascii.eqb Bool.eqb].
    unfold field_S. rewrite field_two_digits by lia.
    cbn [at_end]. rewrite Hmake. reflexivity.
  - unfold parse_earnings_date. rewrite Hfirst.
    unfold strptime_date, obind. rewrite Hdate. cbn [at_end].
    rewrite (make_datetime_value y m d 0 0 0) by lia.
    rewrite (make_datetime_value y m d hour minute sec) in Hmake by lia.
    inversion Hmake. f_equal. lia.
Qed.

(** X20 at work: the call of 2022-07-28, at 17:00:00 and as a bare date. *)
Lemma both_date_formats_are_read_witness :
  parse_earnings_date (VStr "2022-07-28 17:00:00") = Ok 63794624400000000
  /\ strptime_date_time "2022-07-28" = None
  /\ parse_earnings_date (VStr "2022-07-28")
     = Ok (63794624400000000 - (17 * 3600 + 0 * 60 + 0) * second).
Proof.
  apply (both_date_formats_are_read 2022 7 28 17 0 0 63794624400000000).
  reflexivity.
Defined.

(** ** The fetcher: how far it falls back and how long it waits *)

Section FetcherFurther.

Variable svc : nat -> value -> value -> reply.
Variables (t : value) (max_retries : Z).

(** HTTP 200, whatever the headers, with a non-empty list. *)
Lemma for_attempts_found_any (yv : value) (k : nat) (a : Z) (w : world)
    (r : response) (first : value) (rest : list value) :
  svc (fetches w) t yv = Reply r ->
  status_code r = 200 ->
  json r = VList (first :: rest) ->
  for_attempts svc t yv max_retries (S k) a w =
  (Ok (Some (Found first)), after_request t yv [] w).
Proof.
  intros Hsvc Hstatus Hbody. cbn [for_attempts]. run_monad. rewrite Hsvc.
  step_monad. rewrite Hstatus. step_monad. rewrite Hbody. same_world.
Qed.

(** Years without transcripts, then one with. *)
Lemma for_years_falls_back (first : value) (rest : list value) :
  1 <= max_retries ->
  forall (k n : nat) (y : Z) (w : world),
    (k < n)%nat ->
    (forall i j, (i < k)%nat ->
                 exists r, svc j t (VInt (y - Z.of_nat i)) = Reply r
                           /\ status_code r = 200
                           /\ no_transcripts (json r)) ->
    (forall j, exists r, svc j t (VInt (y - Z.of_nat k)) = Reply r
                         /\ status_code r = 200
                         /\ json r = VList (first :: rest)) ->
    for_years svc t max_retries n (VInt y) w =
    (Ok (Found first, VInt (y - Z.of_nat k)),
     {| fetches := S k + fetches w; log := log w ++ fallback_log t y k |}).
Proof.
  intros Hmax. destruct (at_least_one_attempt max_retries Hmax) as [m Hm].
  induction k as [|k IH]; intros n y w Hn Hempty Hfound.
  - destruct n as [|n]; [lia|]. rewrite for_years_unfold, Hm.
    destruct (Hfound (fetches w)) as [r [Hr [Hs Hb]]].
    replace (y - Z.of_nat 0) with y in * by lia.
    rewrite (for_attempts_found_any (VInt y) m 0 w r first rest Hr Hs Hb).
    reflexivity.
  - destruct n as [|n]; [lia|]. rewrite for_years_unfold, Hm.
    destruct (Hempty 0%nat (fetches w)) as [r [Hr [Hs Hb]]]; [lia|].
    replace (y - Z.of_nat 0) with y in Hr by lia.
    rewrite (for_attempts_no_transcripts svc t (VInt y) max_retries m 0 w r
               Hr Hs Hb).
    cbn [py_decrement]. rewrite IH.
    + unfold after_request. cbn [fetches log fallback_log].
      rewrite <- app_assoc. cbn [app].
      replace (y - 1 - Z.of_nat k) with (y - Z.of_nat (S k)) by lia.
      rewrite <- plus_n_Sm. reflexivity.
    + lia.
    + intros i j Hi.
      replace (y - 1 - Z.of_nat i) with (y - Z.of_nat (S i)) by lia.
      apply Hempty. lia.
    + intros j.
      replace (y - 1 - Z.of_nat k) with (y - Z.of_nat (S k)) by lia.
      apply Hfound.
Qed.

(** A pass of the retry loop with an attempt to make starts with a
    request. *)
Lemma for_attempts_first (yv : value) (k : nat) (a : Z) (w : world) :
  exists evs,
    log (snd (for_attempts svc t yv max_retries (S k) a w))
    = (log w ++ Get t yv :: evs)%list.
Proof.
  cbn [for_attempts]. unfold bind at 1.
  destruct (attempt_body_log svc t max_retries yv a w) as [evs1 [Hw1 _]].
  destruct (attempt_body svc t yv max_retries a w) as [[f|e] w1];
    cbn [snd] in Hw1; subst w1; try (exists evs1; reflexivity).
  destruct f; try (exists evs1; reflexivity).
  destruct (for_attempts_log svc t max_retries yv k (a + 1)
              (after_request t yv evs1 w)) as [evs2 [Hw2 _]].
  exists (evs1 ++ evs2)%list. rewrite Hw2. unfold after_request.
  cbn [log]. rewrite <- app_assoc. reflexivity.
Qed.

(** So does the year loop. *)
Lemma for_years_first (yv : value) (n : nat) (w : world) :
  1 <= max_retries ->
  exists evs,
    log (snd (for_years svc t max_retries (S n) yv w))
    = (log w ++ Get t yv :: evs)%list.
Proof.
  intros Hmax. destruct (at_least_one_attempt max_retries Hmax) as [m Hm].
  rewrite for_years_unfold, Hm.
  destruct (for_attempts_first yv m 0 w) as [evs1 H1].
  destruct (for_attempts svc t yv max_retries (S m) 0 w)
    as [[[term|]|e] w1]; cbn [snd] in H1; try (exists evs1; exact H1).
  destruct (py_decrement yv) as [yv'|e]; [|exists evs1; exact H1].
  destruct (for_years_log svc t max_retries n yv' w1) as [evs2 [H2 _]].
  exists (evs1 ++ evs2)%list. rewrite H2. cbn [log]. rewrite H1.
  rewrite <- app_assoc. reflexivity.
Qed.

End FetcherFurther.

(** Every request of the year loop carries the ticker it was given. *)
Lemma candidate_years_ticker (t : value) (max_retries : Z) (n : nat) :
  forall (yv : value) (reqs : list (value * value)),
    candidate_years t max_retries yv n reqs ->
    Forall (fun p => fst p = t) reqs.
Proof.
  induction n as [|n IH]; intros yv reqs H; cbn [candidate_years] in H.
  - subst reqs. constructor.
  - destruct H as [a [rest [E [_ Hrest]]]]. subst reqs.
    apply Forall_app. split.
    + apply Forall_forall. intros p Hp. apply repeat_spec in Hp. subst p.
      reflexivity.
    + destruct (py_decrement yv) as [yv'|e]; [exact (IH yv' rest Hrest)|].
      subst rest. constructor.
Qed.

Lemma sleeps_backoff_log (t yv : value) (k : nat) :
  forall a, 0 <= a ->
    total (sleeps (backoff_log t yv a k)) = 2 ^ (a + Z.of_nat k) - 2 ^ a.
Proof.
  induction k as [|k IH]; intros a Ha.
  - cbn. replace (a + 0) with a by lia. lia.
  - cbn [backoff_log]. change (sleeps (Get t yv :: Error RequestFailed
                                         :: Sleep (2 ^ a)
                                         :: backoff_log t yv (a + 1) k))
      with (2 ^ a :: sleeps (backoff_log t yv (a + 1) k)).
    cbn [total fold_right]. fold (total (sleeps (backoff_log t yv (a + 1) k))).
    rewrite IH by lia.
    replace (a + Z.of_nat (S k)) with (a + 1 + Z.of_nat k) by lia.
    rewrite (Z.pow_add_r 2 a 1) by lia. change (2 ^ 1) with 2. lia.
Qed.

Lemma requested_backoff_log (t yv : value) (k : nat) :
  forall a, requested (backoff_log t yv a k) = repeat (t, yv) (S k).
Proof.
  induction k as [|k IH]; intros a; [reflexivity|].
  cbn [backoff_log]. change (requested (Get t yv :: Error RequestFailed
                                          :: Sleep (2 ^ a)
                                          :: backoff_log t yv (a + 1) k))
    with ((t, yv) :: requested (backoff_log t yv (a + 1) k)).
  rewrite IH. reflexivity.
Qed.

(** X21.  The fetch falls back as many years as it needs, one request per
    empty year: when [k] successive years from [y] down have no
    transcripts, the year after them has some and [k] is below
    [year_retries], the first transcript of that year is returned after
    exactly [k + 1] requests and no sleep, with the year variable at
    [y - k]. *)
Theorem falls_back_to_the_latest_year_with_a_transcript
    (svc : nat -> value -> value -> reply) (t : value) (y : Z)
    (max_retries year_retries : Z) (k : nat) (w : world)
    (first : value) (rest : list value) :
  1 <= max_retries ->
  Z.of_nat k < year_retries ->
  (forall i j, (i < k)%nat ->
               exists r, svc j t (VInt (y - Z.of_nat i)) = Reply r
                         /\ status_code r = 200
                         /\ no_transcripts (json r)) ->
  (forall j, exists r, svc j t (VInt (y - Z.of_nat k)) = Reply r
                       /\ status_code r = 200
                       /\ json r = VList (first :: rest)) ->
  get_transcripts_run svc t (VInt y) max_retries year_retries w =
    (Ok (Found first, VInt (y - Z.of_nat k)),
     {| fetches := S k + fetches w; log := log w ++ fallback_log t y k |}).
Proof.
  intros Hmax Hk Hempty Hfound. unfold get_transcripts_run.
  apply for_years_falls_back with (rest := rest); try assumption. lia.
Qed.

(** X21 at work: asked for 2025 with four years to try, the latest
    transcript is of 2022. *)
Lemma falls_back_to_the_latest_year_with_a_transcript_witness :
  get_transcripts_run (nothing_after 2022) (VStr "AAPL") (VInt 2025) 5 4
    genesis =
    (Ok (Found transcript_2022, VInt 2022),
     {| fetches := 4;
        log := [Get (VStr "AAPL") (VInt 2025);
                Warning (NoTranscriptsFound (VInt 2025));
                Get (VStr "AAPL") (VInt 2024);
                Warning (NoTranscriptsFound (VInt 2024));
                Get (VStr "AAPL") (VInt 2023);
                Warning (NoTranscriptsFound (VInt 2023));
                Get (VStr "AAPL") (VInt 2022)] |}).
Proof.
  apply (falls_back_to_the_latest_year_with_a_transcript (nothing_after 2022)
           (VStr "AAPL") 2025 5 4 3 genesis transcript_2022 []); try lia.
  - intros i j Hi. exists (ok_response (VList [])).
    assert (C : i = 0%nat \/ i = 1%nat \/ i = 2%nat) by lia.
    destruct C as [C|[C|C]]; subst i;
      (repeat split; intros first rest; discriminate).
  - intros j. exists (ok_response (VList [transcript_2022])). repeat split.
Defined.

(** X22.  When every request meets a failed connection or a 4xx/5xx
    answer and there are at most 35 attempts, the fetch makes
    [max_retries] requests and sleeps [2 ** (max_retries - 1) - 1] seconds
    in all before it gives up (15 seconds with the default of five
    attempts). *)
Theorem total_backoff_before_giving_up
    (svc : nat -> value -> value -> reply) (t yv : value)
    (max_retries year_retries : Z) (w : world) :
  (forall n, failing (svc n t yv)) ->
  1 <= max_retries <= 35 ->
  1 <= year_retries ->
  exists evs,
    get_transcripts_run svc t yv max_retries year_retries w =
      (Ok (Aborted, yv),
       {| fetches := Z.to_nat max_retries + fetches w;
          log := log w ++ evs |})
    /\ List.length (requested evs) = Z.to_nat max_retries
    /\ total (sleeps evs) = 2 ^ (max_retries - 1) - 1.
Proof.
  intros Hsvc [Hmax Hfew] Hyears.
  destruct (at_least_one_attempt year_retries Hyears) as [n Hn].
  destruct (at_least_one_attempt max_retries Hmax) as [k Hk].
  exists (backoff_log t yv 0 k). repeat split.
  - unfold get_transcripts_run. rewrite Hn, for_years_unfold, Hk.
    rewrite (for_attempts_all_failing svc t yv max_retries Hsvc Hfew k 0 w)
      by lia.
    reflexivity.
  - rewrite requested_backoff_log, repeat_length. lia.
  - rewrite sleeps_backoff_log by lia.
    replace (0 + Z.of_nat k) with (max_retries - 1) by lia. reflexivity.
Qed.

(** X22 at work: five attempts against a server that answers 503. *)
Lemma total_backoff_before_giving_up_witness :
  exists evs,
    get_transcripts_run always_server_error (VStr "AAPL") (VInt 2024) 5 3
      genesis =
      (Ok (Aborted, VInt 2024),
       {| fetches := Z.to_nat 5 + fetches genesis;
          log := log genesis ++ evs |})
    /\ List.length (requested evs) = Z.to_nat 5
    /\ total (sleeps evs) = 2 ^ (5 - 1) - 1.
Proof.
  apply (total_backoff_before_giving_up always_server_error (VStr "AAPL")
           (VInt 2024) 5 3 genesis); [|lia|lia].
  intros n. right. exists (with_status 503).
  split; [reflexivity|]. cbn. lia.
Defined.

(** ** From the query to the requests *)

Section QueryToRequests.

Variable chat_with_tools : string -> completion.
Variable chat_analysis : value -> completion.
Variable search_service : value -> reply.
Variable transcript_service : nat -> value -> value -> reply.
Variable this_year : Z.

(** X23.  What the transcript service is asked for is what the earlier
    stages produced: once the query is extracted and the ticker resolved,
    the next thing the run does is request the resolved ticker for the
    extracted year, and every later transcript request of the run carries
    that same ticker. *)
Theorem requests_carry_the_resolved_ticker
    (user_input : string) (w w1 w2 : world)
    (year ticker_or_company ticker : value) :
  extract_year_and_ticker chat_with_tools this_year user_input w
    = (Ok (year, ticker_or_company), w1) ->
  resolve_ticker search_service ticker_or_company w1 = (Ok ticker, w2) ->
  exists evs,
    log (snd (process_user_input chat_with_tools chat_analysis search_service
                transcript_service this_year user_input w))
    = (log w2 ++ Get ticker year :: evs)%list
    /\ Forall (fun p => fst p = ticker) (requested (Get ticker year :: evs)).
Proof.
  intros Hextract Hresolve.
  unfold process_user_input. unfold bind at 1. rewrite Hextract.
  unfold bind at 1. cbn [fst snd]. rewrite Hresolve.
  unfold get_transcripts, get_transcripts_run.
  unfold bind at 1. unfold bind at 1. change (Z.to_nat 3) with 3%nat.
  destruct (for_years_first transcript_service ticker 5 year 2 w2)
    as [evsA HA]; [lia|].
  destruct (for_years_log transcript_service ticker 5 3 year w2)
    as [evsB [HB [_ Hc]]].
  rewrite HB in HA. cbn [log] in HA. apply app_inv_head in HA. subst evsB.
  pose proof (candidate_years_ticker ticker 5 3 year _ Hc) as Hticker.
  destruct (for_years transcript_service ticker 5 3 year w2)
    as [[fetched|e] w3]; cbn [snd] in HB; subst w3;
    [|exists evsA; split; [reflexivity | exact Hticker]].
  unfold ret at 1.
  destruct (truthy (return_value (fst fetched)));
    [|exists evsA; split; [reflexivity | exact Hticker]].
  unfold analyze_transcript, bind, lift, tell, ret, raise.
  destruct (py_getitem (return_value (fst fetched)) "content") as [content|e];
    [|exists evsA; split; [reflexivity | exact Hticker]].
  assert (Hmore : Forall (fun p => fst p = ticker)
                    (requested (Get ticker year :: evsA ++ [Analyze content]))).
  { change (Get ticker year :: evsA ++ [Analyze content])%list
      with ((Get ticker year :: evsA) ++ [Analyze content])%list.
    rewrite requested_app. cbn [requested flat_map app] in *.
    rewrite app_nil_r. exact Hticker. }
  destruct (chat_analysis content);
    (exists (evsA ++ [Analyze content])%list; split; [|exact Hmore]);
    cbn [snd emit log]; rewrite <- app_assoc; reflexivity.
Qed.

End QueryToRequests.

(** X23 at work: "Apple" resolves to AAPL, the year is 2024. *)
Lemma requests_carry_the_resolved_ticker_witness :
  exists evs,
    log (snd (process_user_input apple_chat analyst apple_search only_2022
                2026 apple_query genesis))
    = ([Extract apple_query; Search (VStr "Apple")]
       ++ Get (VStr "AAPL") (VInt 2024) :: evs)%list
    /\ Forall (fun p => fst p = VStr "AAPL")
              (requested (Get (VStr "AAPL") (VInt 2024) :: evs)).
Proof.
  apply (requests_carry_the_resolved_ticker apple_chat analyst apple_search
           only_2022 2026 apple_query genesis
           {| fetches := 0; log := [Extract apple_query] |}
           {| fetches := 0;
              log := [Extract apple_query; Search (VStr "Apple")] |}
           (VInt 2024) (VStr "Apple") (VStr "AAPL"));
    reflexivity.
Defined.
